(** * EventFlow: ticket inventory, booking and payment state machines

    A shallow embedding of the model layer of the EventFlow backend
    ([backend/tickets/models.py], [backend/bookings/models.py],
    [backend/payments/models.py]) and of the check-in validation of
    [backend/tickets/serializers.py].

    Conventions of the embedding.
    - Python [int] is [Z]; a [PositiveIntegerField] is a [Z] that the
      database keeps non-negative (see [TicketType.wf]).
    - [Decimal] is [Q]: the additions, subtractions, comparisons, the
      product and the division by [100] that the code performs are exact
      for values of the fields' size ([max_digits=10]).
    - A [DateTimeField] is a [Z] (microseconds); [timezone.now()] is the
      argument [now] of the operation that reads the clock.
    - The state of an object is its model instance; which of the assigned
      fields a [save(update_fields=...)] writes to the row is not
      tracked.  The code that the models run inside [save] before
      [super().save] is part of each operation.  Tables that a method
      reaches through a related manager or [objects] are in the record
      [Db].
    - Fields that no modelled method reads or writes are left out of the
      records. *)

From Stdlib Require Import ZArith QArith Qminmax Lia Lqa String.
From stdpp Require Import base option list gmap strings sorting.

Open Scope Z_scope.

(** ** Python values *)

Definition Decimal := Q.
Definition DateTime := Z.
Definition UserId := Z.

(** Truth value of a [Decimal] ([Decimal('0')] is false). *)
Definition decimal_truthy (d : Decimal) : bool := negb (Qeq_bool d 0).

(** Truth value of an optional [Decimal] attribute ([None] is false). *)
Definition opt_decimal_truthy (d : option Decimal) : bool :=
  match d with
  | Some v => decimal_truthy v
  | None => false
  end.

(** Truth value of a [str] (the empty string is false). *)
Definition str_truthy (s : string) : bool :=
  match s with
  | EmptyString => false
  | String _ _ => true
  end.

(** A JSON object with string values, as [gateway_response] or one entry
    of [assigned_seats]. *)
Definition JsonDict := gmap string string.

(** Truth value of a [dict] (the empty dict is false). *)
Definition dict_truthy (d : JsonDict) : bool :=
  negb (bool_decide (d = ∅)).

(** [timezone.timedelta(hours=h)] and [timezone.timedelta(minutes=m)]. *)
Definition timedelta_hours (h : Z) : Z := h * 3600 * 1000000.
Definition timedelta_minutes (m : Z) : Z := m * 60 * 1000000.

(** ** Data model *)

Module TicketType.

(** [SALE_STATUS_CHOICES] *)
Inductive SaleStatus :=
| not_started | on_sale | paused | sold_out | ended.

Record t := mk {
  quantity : Z;
  sold_count : Z;
  reserved_count : Z;
  sale_status : SaleStatus
}.

Definition with_reserved_count (v : Z) (s : t) : t :=
  mk (quantity s) (sold_count s) v (sale_status s).

Definition with_sold_count (v : Z) (s : t) : t :=
  mk (quantity s) v (reserved_count s) (sale_status s).

Definition with_sale_status (v : SaleStatus) (s : t) : t :=
  mk (quantity s) (sold_count s) (reserved_count s) v.

(** The three counters are [PositiveIntegerField]s. *)
Definition wf (s : t) : Prop :=
  0 <= quantity s /\ 0 <= sold_count s /\ 0 <= reserved_count s.

(** The conservation invariant of the inventory ledger. *)
Definition conserved (s : t) : Prop :=
  sold_count s + reserved_count s <= quantity s.

End TicketType.

Module Ticket.

(** [STATUS_CHOICES] *)
Inductive Status :=
| active | used | refunded | transferred | cancelled | expired.

Global Instance Status_eq_dec : EqDecision Status.
Proof. solve_decision. Defined.

Record t := mk {
  ticket_type : Z;
  event : Z;
  original_buyer : UserId;
  current_holder : UserId;
  booking : Z;
  purchase_price : Decimal;
  service_fee_paid : Decimal;
  tax_paid : Decimal;
  total_paid : Decimal;
  currency : string;
  seat_number : string;
  row_number : string;
  section : string;
  status : Status;
  is_checked_in : bool;
  check_in_time : option DateTime;
  check_in_location : string;
  checked_in_by : option UserId;
  holder_name : string;
  holder_email : string;
  holder_phone : string;
  expires_at : option DateTime
}.

Definition with_status (v : Status) (x : t) : t :=
  mk (ticket_type x) (event x) (original_buyer x) (current_holder x)
     (booking x) (purchase_price x) (service_fee_paid x) (tax_paid x)
     (total_paid x) (currency x) (seat_number x) (row_number x)
     (section x) v (is_checked_in x) (check_in_time x)
     (check_in_location x) (checked_in_by x) (holder_name x)
     (holder_email x) (holder_phone x) (expires_at x).

(** The five assignments of [check_in], in one step. *)
Definition with_check_in (time : DateTime) (location : string)
    (by_user : option UserId) (x : t) : t :=
  mk (ticket_type x) (event x) (original_buyer x) (current_holder x)
     (booking x) (purchase_price x) (service_fee_paid x) (tax_paid x)
     (total_paid x) (currency x) (seat_number x) (row_number x)
     (section x) used true (Some time) location by_user (holder_name x)
     (holder_email x) (holder_phone x) (expires_at x).

End Ticket.

Module Booking.

(** [STATUS_CHOICES] *)
Inductive Status :=
| pending | confirmed | paid | cancelled | expired | refunded
| partially_refunded.

(** [PAYMENT_STATUS_CHOICES] *)
Inductive PaymentStatus :=
| pay_pending | pay_processing | pay_paid | pay_failed | pay_refunded
| pay_partially_refunded.

Global Instance Status_eq_dec : EqDecision Status.
Proof. solve_decision. Defined.

Global Instance PaymentStatus_eq_dec : EqDecision PaymentStatus.
Proof. solve_decision. Defined.

Record t := mk {
  id : Z;
  event : Z;
  user : UserId;
  customer_email : string;
  customer_phone : string;
  customer_first_name : string;
  customer_last_name : string;
  status : Status;
  payment_status : PaymentStatus;
  booking_expires_at : option DateTime;
  confirmed_at : option DateTime;
  cancelled_at : option DateTime;
  cancellation_reason : string;
  cancelled_by : option UserId
}.

Definition with_status (v : Status) (b : t) : t :=
  mk (id b) (event b) (user b) (customer_email b) (customer_phone b)
     (customer_first_name b) (customer_last_name b) v (payment_status b)
     (booking_expires_at b) (confirmed_at b) (cancelled_at b)
     (cancellation_reason b) (cancelled_by b).

Definition with_payment_status (v : PaymentStatus) (b : t) : t :=
  mk (id b) (event b) (user b) (customer_email b) (customer_phone b)
     (customer_first_name b) (customer_last_name b) (status b) v
     (booking_expires_at b) (confirmed_at b) (cancelled_at b)
     (cancellation_reason b) (cancelled_by b).

Definition with_booking_expires_at (v : option DateTime) (b : t) : t :=
  mk (id b) (event b) (user b) (customer_email b) (customer_phone b)
     (customer_first_name b) (customer_last_name b) (status b)
     (payment_status b) v (confirmed_at b) (cancelled_at b)
     (cancellation_reason b) (cancelled_by b).

Definition with_confirmed_at (v : option DateTime) (b : t) : t :=
  mk (id b) (event b) (user b) (customer_email b) (customer_phone b)
     (customer_first_name b) (customer_last_name b) (status b)
     (payment_status b) (booking_expires_at b) v (cancelled_at b)
     (cancellation_reason b) (cancelled_by b).

(** The cancellation metadata written by [cancel_booking]. *)
Definition with_cancellation (time : DateTime) (reason : string)
    (by_user : option UserId) (b : t) : t :=
  mk (id b) (event b) (user b) (customer_email b) (customer_phone b)
     (customer_first_name b) (customer_last_name b) (status b)
     (payment_status b) (booking_expires_at b) (confirmed_at b)
     (Some time) reason by_user.

(** The terminal states of the booking state machine. *)
Definition terminal (s : Status) : Prop :=
  s = cancelled \/ s = expired \/ s = refunded.

End Booking.

Module BookingItem.

Record t := mk {
  booking : Z;
  ticket_type : Z;
  quantity : Z;
  unit_price : Decimal;
  service_fee_per_ticket : Decimal;
  tax_per_ticket : Decimal;
  currency : string;
  assigned_seats : list JsonDict
}.

End BookingItem.

Module Payment.

(** [STATUS_CHOICES] *)
Inductive Status :=
| pending | processing | completed | failed | cancelled | refunded
| partially_refunded | disputed | expired.

Global Instance Status_eq_dec : EqDecision Status.
Proof. solve_decision. Defined.

Record t := mk {
  id : Z;
  user : UserId;
  amount : Decimal;
  currency : string;
  gateway_transaction_id : string;
  gateway_response : JsonDict;
  status : Status;
  payment_date : option DateTime;
  gateway_callback_received : bool;
  gateway_fee : Decimal;
  platform_fee : Decimal;
  net_amount : option Decimal;
  retry_count : Z;
  max_retries : Z;
  last_retry_at : option DateTime;
  failure_reason : string;
  failure_code : string;
  expires_at : option DateTime
}.

Definition with_status (v : Status) (p : t) : t :=
  mk (id p) (user p) (amount p) (currency p) (gateway_transaction_id p)
     (gateway_response p) v (payment_date p) (gateway_callback_received p)
     (gateway_fee p) (platform_fee p) (net_amount p) (retry_count p)
     (max_retries p) (last_retry_at p) (failure_reason p) (failure_code p)
     (expires_at p).

Definition with_payment_date (v : option DateTime) (p : t) : t :=
  mk (id p) (user p) (amount p) (currency p) (gateway_transaction_id p)
     (gateway_response p) (status p) v (gateway_callback_received p)
     (gateway_fee p) (platform_fee p) (net_amount p) (retry_count p)
     (max_retries p) (last_retry_at p) (failure_reason p) (failure_code p)
     (expires_at p).

Definition with_gateway_transaction_id (v : string) (p : t) : t :=
  mk (id p) (user p) (amount p) (currency p) v
     (gateway_response p) (status p) (payment_date p)
     (gateway_callback_received p) (gateway_fee p) (platform_fee p)
     (net_amount p) (retry_count p) (max_retries p) (last_retry_at p)
     (failure_reason p) (failure_code p) (expires_at p).

(** [gateway_response] and [gateway_callback_received], assigned together. *)
Definition with_gateway_response (v : JsonDict) (p : t) : t :=
  mk (id p) (user p) (amount p) (currency p) (gateway_transaction_id p)
     v (status p) (payment_date p) true (gateway_fee p) (platform_fee p)
     (net_amount p) (retry_count p) (max_retries p) (last_retry_at p)
     (failure_reason p) (failure_code p) (expires_at p).

Definition with_net_amount (v : option Decimal) (p : t) : t :=
  mk (id p) (user p) (amount p) (currency p) (gateway_transaction_id p)
     (gateway_response p) (status p) (payment_date p)
     (gateway_callback_received p) (gateway_fee p) (platform_fee p) v
     (retry_count p) (max_retries p) (last_retry_at p) (failure_reason p)
     (failure_code p) (expires_at p).

Definition with_expires_at (v : option DateTime) (p : t) : t :=
  mk (id p) (user p) (amount p) (currency p) (gateway_transaction_id p)
     (gateway_response p) (status p) (payment_date p)
     (gateway_callback_received p) (gateway_fee p) (platform_fee p)
     (net_amount p) (retry_count p) (max_retries p) (last_retry_at p)
     (failure_reason p) (failure_code p) v.

(** The two assignments of [mark_failed] after the status. *)
Definition with_failure (reason code : string) (p : t) : t :=
  mk (id p) (user p) (amount p) (currency p) (gateway_transaction_id p)
     (gateway_response p) (status p) (payment_date p)
     (gateway_callback_received p) (gateway_fee p) (platform_fee p)
     (net_amount p) (retry_count p) (max_retries p) (last_retry_at p)
     reason code (expires_at p).

(** The assignments of [retry_payment] after the status. *)
Definition with_retry (count : Z) (time : DateTime) (p : t) : t :=
  mk (id p) (user p) (amount p) (currency p) (gateway_transaction_id p)
     (gateway_response p) (status p) (payment_date p)
     (gateway_callback_received p) (gateway_fee p) (platform_fee p)
     (net_amount p) count (max_retries p) (Some time) "" ""
     (expires_at p).

End Payment.

Module Refund.

(** [STATUS_CHOICES] *)
Inductive Status :=
| pending | processing | completed | failed | cancelled.

Global Instance Status_eq_dec : EqDecision Status.
Proof. solve_decision. Defined.

Record t := mk {
  original_payment : Z;
  refund_amount : Decimal;
  currency : string;
  reason : string;
  status : Status;
  processing_fee : Decimal;
  net_refund_amount : option Decimal;
  refunded_to_user : UserId;
  gateway_refund_id : string;
  gateway_fee : Decimal;
  approved_by : option UserId;
  approved_at : option DateTime;
  approval_notes : string;
  completed_at : option DateTime
}.

Definition with_net_refund_amount (v : option Decimal) (r : t) : t :=
  mk (original_payment r) (refund_amount r) (currency r) (reason r)
     (status r) (processing_fee r) v (refunded_to_user r)
     (gateway_refund_id r) (gateway_fee r) (approved_by r) (approved_at r)
     (approval_notes r) (completed_at r).

(** The four assignments of [approve]. *)
Definition with_approval (by_user : UserId) (time : DateTime)
    (notes : string) (r : t) : t :=
  mk (original_payment r) (refund_amount r) (currency r) (reason r)
     processing (processing_fee r) (net_refund_amount r)
     (refunded_to_user r) (gateway_refund_id r) (gateway_fee r)
     (Some by_user) (Some time) notes (completed_at r).

(** [status] and [completed_at], as [complete_refund] assigns them. *)
Definition with_completion (time : DateTime) (r : t) : t :=
  mk (original_payment r) (refund_amount r) (currency r) (reason r)
     completed (processing_fee r) (net_refund_amount r)
     (refunded_to_user r) (gateway_refund_id r) (gateway_fee r)
     (approved_by r) (approved_at r) (approval_notes r) (Some time).

Definition with_gateway_refund_id (v : string) (r : t) : t :=
  mk (original_payment r) (refund_amount r) (currency r) (reason r)
     (status r) (processing_fee r) (net_refund_amount r)
     (refunded_to_user r) v (gateway_fee r) (approved_by r) (approved_at r)
     (approval_notes r) (completed_at r).

End Refund.

Module DiscountCode.

(** [DISCOUNT_TYPES] *)
Inductive DiscountType :=
| percentage | fixed_amount | free_shipping | buy_one_get_one.

Record t := mk {
  discount_type : DiscountType;
  discount_value : Decimal;
  max_discount_amount : option Decimal
}.

End DiscountCode.

(** ** The tables reached through related managers *)

Record Db := mkDb {
  ticket_types : gmap Z TicketType.t;   (* [TicketType] rows by primary key *)
  booking_items : list BookingItem.t;    (* [booking_items] *)
  tickets : list Ticket.t;               (* [tickets] *)
  refunds : list Refund.t                (* [refunds] *)
}.

Definition with_ticket_types (v : gmap Z TicketType.t) (db : Db) : Db :=
  mkDb v (booking_items db) (tickets db) (refunds db).

Definition with_tickets (v : list Ticket.t) (db : Db) : Db :=
  mkDb (ticket_types db) (booking_items db) v (refunds db).

Definition with_refunds (v : list Refund.t) (db : Db) : Db :=
  mkDb (ticket_types db) (booking_items db) (tickets db) v.

(** ** [tickets/models.py] *)

Module tickets_models.

Import TicketType.

(** [TicketType.available_count] *)
Definition available_count (self : TicketType.t) : Z :=
  Z.max 0 (quantity self - sold_count self - reserved_count self).

(** [TicketType.is_sold_out] *)
Definition is_sold_out (self : TicketType.t) : bool :=
  available_count self =? 0.

(** [TicketType.reserve_tickets]: the new row and the returned flag. *)
Definition reserve_tickets (q : Z) (self : TicketType.t)
    : TicketType.t * bool :=
  if q <=? available_count self
  then (with_reserved_count (reserved_count self + q) self, true)
  else (self, false).

(** [TicketType.release_reservation] (returns [None]). *)
Definition release_reservation (q : Z) (self : TicketType.t)
    : TicketType.t :=
  with_reserved_count (Z.max 0 (reserved_count self - q)) self.

(** [TicketType.sell_tickets].  The local [remaining] of the source is
    assigned and never read. *)
Definition sell_tickets (q : Z) (self : TicketType.t)
    : TicketType.t * bool :=
  if q <=? available_count self + reserved_count self then
    let s1 :=
      if q <=? reserved_count self
      then with_reserved_count (reserved_count self - q) self
      else with_reserved_count 0 self in
    let s2 := with_sold_count (sold_count s1 + q) s1 in
    let s3 :=
      if available_count s2 =? 0 then with_sale_status sold_out s2
      else s2 in
    (s3, true)
  else (self, false).

(** [Ticket.is_valid]; a [datetime] is always true, so
    [not self.expires_at] tests for [None]. *)
Definition is_valid (now : DateTime) (self : Ticket.t) : bool :=
  bool_decide (Ticket.status self = Ticket.active)
  && negb (Ticket.is_checked_in self)
  && match Ticket.expires_at self with
     | None => true
     | Some e => now <=? e
     end.

(** [Ticket.check_in].  [Ticket.save] only fills [qr_code_data] and
    [validation_code], which are not modelled. *)
Definition check_in (now : DateTime) (location : string)
    (checked_in_by : option UserId) (self : Ticket.t) : Ticket.t * bool :=
  if is_valid now self && negb (Ticket.is_checked_in self)
  then (Ticket.with_check_in now location checked_in_by self, true)
  else (self, false).

End tickets_models.

(** ** [tickets/serializers.py]: [TicketCheckInSerializer] *)

Module TicketCheckInSerializer.

(** The four [ValidationError]s of [validate], in source order:
    "Ticket is not valid for check-in", "Ticket has already been checked
    in", "Event has already ended", "Check-in not yet available". *)
Inductive CheckInError :=
| InvalidTicket | AlreadyCheckedIn | EventEnded | EventNotYetOpen.

(** [validate], for the ticket that [ticket_code] names and the start and
    end dates of its event. *)
Definition validate (now : DateTime) (ticket : Ticket.t)
    (start_date end_date : DateTime) : CheckInError + Ticket.t :=
  if negb (tickets_models.is_valid now ticket) then inl InvalidTicket
  else if Ticket.is_checked_in ticket then inl AlreadyCheckedIn
  else if end_date <? now then inl EventEnded
  else if now <? start_date - timedelta_hours 2 then inl EventNotYetOpen
  else inr ticket.

End TicketCheckInSerializer.

(** ** [bookings/models.py] *)

Module bookings_models.

Import Booking.

(** [Booking.customer_full_name] *)
Definition customer_full_name (self : Booking.t) : string :=
  (customer_first_name self ++ " " ++ customer_last_name self)%string.

(** The body of [Booking.save] before [super().save]: an unset expiry of
    a pending booking is set to fifteen minutes from now. *)
Definition save (now : DateTime) (self : Booking.t) : Booking.t :=
  match booking_expires_at self with
  | None =>
      if bool_decide (status self = pending)
      then with_booking_expires_at (Some (now + timedelta_minutes 15)) self
      else self
  | Some _ => self
  end.

(** [Booking.confirm_booking] *)
Definition confirm_booking (now : DateTime) (self : Booking.t)
    : Booking.t * bool :=
  if bool_decide (status self = pending)
  then (save now (with_confirmed_at (Some now) (with_status confirmed self)),
        true)
  else (self, false).

(** [self.tickets.update(status='cancelled')]: every ticket row of the
    booking. *)
Definition cancel_tickets_of (booking_id : Z) (rows : list Ticket.t)
    : list Ticket.t :=
  (fun x : Ticket.t =>
     if bool_decide (Ticket.booking x = booking_id)
     then Ticket.with_status Ticket.cancelled x else x) <$> rows.

(** [Booking.cancel_booking] *)
Definition cancel_booking (now : DateTime) (reason : string)
    (by_user : option UserId) (self : Booking.t) (db : Db)
    : Booking.t * Db * bool :=
  if bool_decide (status self = pending)
     || bool_decide (status self = confirmed)
     || bool_decide (status self = paid)
  then
    let self1 :=
      save now (with_cancellation now reason by_user
                  (with_status cancelled self)) in
    (self1, with_tickets (cancel_tickets_of (id self) (tickets db)) db, true)
  else (self, db, false).

(** [Booking.mark_as_paid] *)
Definition mark_as_paid (now : DateTime) (self : Booking.t)
    : Booking.t * bool :=
  if bool_decide (payment_status self = pay_pending)
     || bool_decide (payment_status self = pay_processing)
  then (save now (with_status paid (with_payment_status pay_paid self)),
        true)
  else (self, false).

(** [self.items.all()] *)
Definition items_of (booking_id : Z) (db : Db) : list BookingItem.t :=
  filter (fun i => BookingItem.booking i = booking_id) (booking_items db).

(** [item.ticket_type.release_reservation(item.quantity)] on the row that
    the item's foreign key names. *)
Definition release_tickets (item : BookingItem.t)
    (rows : gmap Z TicketType.t) : gmap Z TicketType.t :=
  match rows !! BookingItem.ticket_type item with
  | Some row =>
      <[BookingItem.ticket_type item :=
          tickets_models.release_reservation (BookingItem.quantity item) row]> rows
  | None => rows
  end.

(** [BookingItem.reserve_tickets] *)
Definition reserve_tickets (item : BookingItem.t)
    (rows : gmap Z TicketType.t) : gmap Z TicketType.t * bool :=
  match rows !! BookingItem.ticket_type item with
  | Some row =>
      let '(row1, ok) :=
        tickets_models.reserve_tickets (BookingItem.quantity item) row in
      (<[BookingItem.ticket_type item := row1]> rows, ok)
  | None => (rows, false)
  end.

(** [Booking.expire_booking] *)
Definition expire_booking (now : DateTime) (self : Booking.t) (db : Db)
    : Booking.t * Db * bool :=
  if bool_decide (status self = pending)
     && bool_decide (payment_status self = pay_pending)
  then
    let self1 := save now (with_status expired self) in
    let rows :=
      foldl (fun rows item => release_tickets item rows)
            (ticket_types db) (items_of (id self) db) in
    (self1, with_ticket_types rows db, true)
  else (self, db, false).

(** [BookingItem.grand_total_per_ticket] *)
Definition grand_total_per_ticket (self : BookingItem.t) : Decimal :=
  (BookingItem.unit_price self + BookingItem.service_fee_per_ticket self
   + BookingItem.tax_per_ticket self)%Q.

(** The ticket that iteration [i] of [create_tickets] creates.  The
    defaults of the [Ticket] fields are [status='active'],
    [is_checked_in=False] and empty or null for the others. *)
Definition new_ticket (self : BookingItem.t) (b : Booking.t) (i : nat)
    : Ticket.t :=
  let seat_info : JsonDict :=
    match BookingItem.assigned_seats self !! i with
    | Some seat_data =>
        {[ "seat_number" := default "" (seat_data !! "seat_number");
           "row_number" := default "" (seat_data !! "row_number");
           "section" := default "" (seat_data !! "section") ]}
    | None => ∅
    end in
  Ticket.mk
    (BookingItem.ticket_type self) (event b) (user b) (user b) (id b)
    (BookingItem.unit_price self) (BookingItem.service_fee_per_ticket self)
    (BookingItem.tax_per_ticket self) (grand_total_per_ticket self)
    (BookingItem.currency self)
    (default "" (seat_info !! "seat_number"))
    (default "" (seat_info !! "row_number"))
    (default "" (seat_info !! "section"))
    Ticket.active false None "" None
    (customer_full_name b) (customer_email b) (customer_phone b) None.

(** [BookingItem.create_tickets]: the returned list, and the [tickets]
    table after the [Ticket.objects.create] calls.  Constraints of the
    database are not modelled. *)
Definition create_tickets (self : BookingItem.t) (b : Booking.t) (db : Db)
    : list Ticket.t * Db :=
  let created :=
    new_ticket self b <$> seq 0 (Z.to_nat (BookingItem.quantity self)) in
  (created, with_tickets (tickets db ++ created) db).

(** [self.tickets.all()] *)
Definition tickets_of (booking_id : Z) (db : Db) : list Ticket.t :=
  filter (fun x => Ticket.booking x = booking_id) (tickets db).

End bookings_models.

(** ** [payments/models.py] *)

Module payments_models.

Import Payment.

(** [Payment.is_successful] *)
Definition is_successful (self : Payment.t) : bool :=
  bool_decide (status self = completed).

(** [Payment.is_pending] *)
Definition is_pending (self : Payment.t) : bool :=
  bool_decide (status self = pending)
  || bool_decide (status self = processing).

(** [Payment.is_failed] *)
Definition is_failed (self : Payment.t) : bool :=
  bool_decide (status self = failed)
  || bool_decide (status self = cancelled)
  || bool_decide (status self = expired).

(** [Payment.can_retry]; [booking] is [self.booking]. *)
Definition can_retry (self : Payment.t) (booking : Booking.t) : bool :=
  is_failed self
  && (retry_count self <? max_retries self)
  && bool_decide (Booking.status booking = Booking.pending).

(** [Payment.total_fees] *)
Definition total_fees (self : Payment.t) : Decimal :=
  (gateway_fee self + platform_fee self)%Q.

(** The body of [Payment.save] before [super().save]. *)
Definition save_payment (now : DateTime) (self : Payment.t) : Payment.t :=
  let self1 :=
    if opt_decimal_truthy (net_amount self) then self
    else with_net_amount (Some (amount self - total_fees self)%Q) self in
  match expires_at self1 with
  | None =>
      if bool_decide (status self1 = pending)
      then with_expires_at (Some (now + timedelta_minutes 30)) self1
      else self1
  | Some _ => self1
  end.

(** [Payment.mark_completed]; the result of [self.booking.mark_as_paid()]
    is dropped, as in the source. *)
Definition mark_completed (now : DateTime)
    (gateway_transaction_id : option string)
    (gateway_response : option JsonDict)
    (self : Payment.t) (booking : Booking.t)
    : Payment.t * Booking.t * bool :=
  if is_pending self then
    let self1 := with_payment_date (Some now) (with_status completed self) in
    let self2 :=
      match gateway_transaction_id with
      | Some txn =>
          if str_truthy txn then with_gateway_transaction_id txn self1
          else self1
      | None => self1
      end in
    let self3 :=
      match gateway_response with
      | Some resp =>
          if dict_truthy resp then with_gateway_response resp self2
          else self2
      | None => self2
      end in
    (save_payment now self3, fst (bookings_models.mark_as_paid now booking), true)
  else (self, booking, false).

(** [Payment.mark_failed] *)
Definition mark_failed (now : DateTime) (failure_reason failure_code : string)
    (self : Payment.t) : Payment.t * bool :=
  if is_pending self
  then (save_payment now
          (with_failure failure_reason failure_code
             (with_status failed self)), true)
  else (self, false).

(** [Payment.retry_payment] *)
Definition retry_payment (now : DateTime) (self : Payment.t)
    (booking : Booking.t) : Payment.t * bool :=
  if can_retry self booking
  then (save_payment now
          (with_retry (retry_count self + 1) now
             (with_status pending self)), true)
  else (self, false).

(** The body of [Refund.save] before [super().save]; the random
    [refund_reference] is not modelled. *)
Definition save_refund (self : Refund.t) : Refund.t :=
  if opt_decimal_truthy (Refund.net_refund_amount self) then self
  else Refund.with_net_refund_amount
         (Some (Refund.refund_amount self - Refund.processing_fee self
                - Refund.gateway_fee self)%Q) self.

(** [refund_amount or self.amount] *)
Definition resolve_refund_amount (refund_amount : option Decimal)
    (self : Payment.t) : Decimal :=
  match refund_amount with
  | Some a => if decimal_truthy a then a else amount self
  | None => amount self
  end.

(** [Payment.process_refund]: the created [Refund] (or [None]) and the
    tables after [Refund.objects.create]. *)
Definition process_refund (refund_amount : option Decimal) (reason : string)
    (self : Payment.t) (db : Db) : option Refund.t * Db :=
  if bool_decide (status self = completed) then
    let refund :=
      save_refund
        (Refund.mk (id self) (resolve_refund_amount refund_amount self)
           (currency self) reason Refund.pending 0%Q None (user self) ""
           0%Q None None "" None) in
    (Some refund, with_refunds (refunds db ++ [refund]) db)
  else (None, db).

(** [Refund.is_approved] *)
Definition is_approved (self : Refund.t) : bool :=
  bool_decide (Refund.approved_at self <> None).

(** [Refund.is_completed] *)
Definition is_completed (self : Refund.t) : bool :=
  bool_decide (Refund.status self = Refund.completed).

(** [Refund.approve] *)
Definition approve (now : DateTime) (approved_by : UserId) (notes : string)
    (self : Refund.t) : Refund.t * bool :=
  if negb (is_approved self)
     && bool_decide (Refund.status self = Refund.pending)
  then (save_refund (Refund.with_approval approved_by now notes self), true)
  else (self, false).

(** [Refund.complete_refund]; [payment] is [self.original_payment]. *)
Definition complete_refund (now : DateTime)
    (gateway_refund_id : option string)
    (self : Refund.t) (payment : Payment.t)
    : Refund.t * Payment.t * bool :=
  if bool_decide (Refund.status self = Refund.processing) then
    let self1 := Refund.with_completion now self in
    let self2 :=
      match gateway_refund_id with
      | Some g =>
          if str_truthy g then Refund.with_gateway_refund_id g self1
          else self1
      | None => self1
      end in
    let payment1 :=
      if Qle_bool (amount payment) (Refund.refund_amount self)
      then with_status refunded payment
      else with_status partially_refunded payment in
    (save_refund self2, save_payment now payment1, true)
  else (self, payment, false).

(** [DiscountCode.calculate_discount] *)
Definition calculate_discount (self : DiscountCode.t)
    (order_amount : Decimal) : Decimal :=
  match DiscountCode.discount_type self with
  | DiscountCode.percentage =>
      let discount :=
        (order_amount * DiscountCode.discount_value self / 100)%Q in
      if opt_decimal_truthy (DiscountCode.max_discount_amount self)
      then Qmin discount
             (default 0%Q (DiscountCode.max_discount_amount self))
      else discount
  | DiscountCode.fixed_amount =>
      Qmin (DiscountCode.discount_value self) order_amount
  | DiscountCode.free_shipping => 0%Q
  | DiscountCode.buy_one_get_one => 0%Q
  end.

End payments_models.

(** ** One checkout: a booking, its payment and the tables *)

Module Checkout.

(** [Payment.booking] is a one-to-one relation: the payment and its
    booking are held together with the tables they reach. *)
Record World := mk {
  payment : Payment.t;
  booking : Booking.t;
  db : Db
}.

(** [booking.mark_as_paid()] in a world. *)
Definition mark_as_paid (now : DateTime) (w : World) : World * bool :=
  let '(b, ok) := bookings_models.mark_as_paid now (booking w) in
  (mk (payment w) b (db w), ok).

(** [booking.cancel_booking(reason, cancelled_by)] in a world. *)
Definition cancel_booking (now : DateTime) (reason : string)
    (by_user : option UserId) (w : World) : World * bool :=
  let '(b, d, ok) :=
    bookings_models.cancel_booking now reason by_user (booking w) (db w) in
  (mk (payment w) b d, ok).

(** [booking.expire_booking()] in a world. *)
Definition expire_booking (now : DateTime) (w : World) : World * bool :=
  let '(b, d, ok) := bookings_models.expire_booking now (booking w) (db w) in
  (mk (payment w) b d, ok).

(** [payment.mark_completed(gateway_transaction_id, gateway_response)] in
    a world. *)
Definition mark_completed (now : DateTime)
    (gateway_transaction_id : option string)
    (gateway_response : option JsonDict) (w : World) : World * bool :=
  let '(p, b, ok) :=
    payments_models.mark_completed now gateway_transaction_id gateway_response
      (payment w) (booking w) in
  (mk p b (db w), ok).



End Checkout.

(** ** Sequences of refund operations on one payment *)

Module RefundWorkflow.

(** The payment and the tables. *)
Record State := mk {
  payment : Payment.t;
  db : Db
}.

(** A call of one of the three refund operations; [Approve] and
    [CompleteRefund] name their [Refund] by its position in the table. *)
Inductive Op :=
| ProcessRefund (refund_amount : option Decimal) (reason : string)
| Approve (i : nat) (approved_by : UserId) (notes : string)
| CompleteRefund (i : nat) (gateway_refund_id : option string).

(** The refund at position [i], when it is a refund of this payment. *)
Definition own_refund (i : nat) (s : State) : option Refund.t :=
  match refunds (db s) !! i with
  | Some r =>
      if bool_decide (Refund.original_payment r = Payment.id (payment s))
      then Some r else None
  | None => None
  end.

(** One operation, at clock reading [now]. *)
Definition step (now : DateTime) (op : Op) (s : State) : State :=
  match op with
  | ProcessRefund a reason =>
      mk (payment s) (snd (payments_models.process_refund a reason (payment s) (db s)))
  | Approve i approved_by notes =>
      match own_refund i s with
      | Some r =>
          let '(r1, _) := payments_models.approve now approved_by notes r in
          mk (payment s) (with_refunds (<[i := r1]> (refunds (db s))) (db s))
      | None => s
      end
  | CompleteRefund i gateway_refund_id =>
      match own_refund i s with
      | Some r =>
          let '(r1, p1, _) :=
            payments_models.complete_refund now gateway_refund_id r (payment s) in
          mk p1 (with_refunds (<[i := r1]> (refunds (db s))) (db s))
      | None => s
      end
  end.

(** A sequence of operations, each with its clock reading. *)
Definition run (ops : list (DateTime * Op)) (s : State) : State :=
  foldl (fun s '(now, op) => step now op s) s ops.


Definition sum_amounts (rs : list Refund.t) : Decimal :=
  foldr (fun r acc => (Refund.refund_amount r + acc)%Q) 0%Q rs.





(** A completed payment is refunded in full twice: both refunds are
    requested while the payment is completed, and both complete. *)
Definition double_refund : list (DateTime * Op) :=
  [ (10, ProcessRefund None "requested by customer");
    (11, ProcessRefund None "requested by organizer");
    (20, Approve 0 1 ""); (21, Approve 1 1 "");
    (30, CompleteRefund 0 None); (31, CompleteRefund 1 None) ].

End RefundWorkflow.

(** ** Sequences of ledger operations on one ticket type *)

Module InventoryLedger.

Inductive Op :=
| Reserve (q : Z)
| Release (q : Z)
| Sell (q : Z).

Definition amount_of (op : Op) : Z :=
  match op with
  | Reserve q | Release q | Sell q => q
  end.

Definition step (op : Op) (s : TicketType.t) : TicketType.t :=
  match op with
  | Reserve q => fst (tickets_models.reserve_tickets q s)
  | Release q => tickets_models.release_reservation q s
  | Sell q => fst (tickets_models.sell_tickets q s)
  end.

Definition run (ops : list Op) (s : TicketType.t) : TicketType.t :=
  foldl (fun s op => step op s) s ops.

End InventoryLedger.

(** ** A checkout used in the examples

    Booking 1 of user 42 holds two tickets of ticket type 7, which has ten
    tickets, none sold and the two of this booking reserved. *)

Module Demo.

Definition ticket_type : TicketType.t :=
  TicketType.mk 10 0 2 TicketType.on_sale.

Definition item : BookingItem.t :=
  BookingItem.mk 1 7 2 50000%Q 2500%Q 0%Q "UGX" [].

Definition booking : Booking.t :=
  Booking.mk 1 100 42 "buyer@example.org" "" "Sam" "Okello"
    Booking.pending Booking.pay_pending (Some 900000000) None None "" None.

Definition payment : Payment.t :=
  Payment.mk 1 42 105000%Q "UGX" "" ∅ Payment.pending None false 0%Q 0%Q
    None 0 3 None "" "" (Some 1800000000).

Definition db : Db := mkDb {[ 7 := ticket_type ]} [item] [] [].

Definition world : Checkout.World := Checkout.mk payment booking db.

(** The payment once completed, before any refund. *)
Definition refund_state : RefundWorkflow.State :=
  RefundWorkflow.mk (Payment.with_status Payment.completed payment) db.


(** A 10% code capped at 5000, and one whose cap is zero. *)
Definition ten_percent_capped : DiscountCode.t :=
  DiscountCode.mk DiscountCode.percentage 10%Q (Some 5000%Q).

Definition ten_percent_zero_cap : DiscountCode.t :=
  DiscountCode.mk DiscountCode.percentage 10%Q (Some 0%Q).

Definition fixed_2000 : DiscountCode.t :=
  DiscountCode.mk DiscountCode.fixed_amount 2000%Q None.

(** An active ticket of the booking, for an event that runs from hour 10
    to hour 14. *)
Definition ticket : Ticket.t :=
  Ticket.mk 7 100 42 42 1 50000%Q 2500%Q 0%Q 52500%Q "UGX" "" "" ""
    Ticket.active false None "" None "Sam Okello" "buyer@example.org" ""
    None.

Definition event_start : DateTime := timedelta_hours 10.
Definition event_end : DateTime := timedelta_hours 14.

End Demo.

(** ** [tickets/models.py]: sale window, prices and policies

    The columns of a ticket type beside its three counters and its sale
    status. *)

Module TicketTypeRow.

Global Instance SaleStatus_eq_dec : EqDecision TicketType.SaleStatus.
Proof. solve_decision. Defined.

Record t := mk {
  counters : TicketType.t;
  price : Decimal;
  service_fee : Decimal;
  tax_percentage : Decimal;
  min_purchase : Z;
  max_purchase : Z;
  sale_starts : DateTime;
  sale_ends : DateTime;
  early_bird_until : option DateTime;
  early_bird_price : option Decimal;
  is_refundable : bool;
  is_transferable : bool;
  refund_deadline : option DateTime;
  is_active : bool
}.

Definition with_counters (v : TicketType.t) (r : t) : t :=
  mk v (price r) (service_fee r) (tax_percentage r) (min_purchase r)
     (max_purchase r) (sale_starts r) (sale_ends r) (early_bird_until r)
     (early_bird_price r) (is_refundable r) (is_transferable r)
     (refund_deadline r) (is_active r).

End TicketTypeRow.

Module TicketSale.

Import TicketTypeRow.

(** [TicketType.is_available] *)
Definition is_available (now : DateTime) (self : TicketTypeRow.t) : bool :=
  is_active self
  && bool_decide (TicketType.sale_status (counters self) = TicketType.on_sale)
  && (sale_starts self <=? now) && (now <=? sale_ends self)
  && (0 <? tickets_models.available_count (counters self)).

(** [TicketType.can_purchase] *)
Definition can_purchase (now : DateTime) (q : Z) (self : TicketTypeRow.t)
    : bool :=
  is_available now self
  && (min_purchase self <=? q) && (q <=? max_purchase self)
  && (q <=? tickets_models.available_count (counters self)).

(** [TicketType.current_price]: the early-bird price needs a deadline, a
    price that is not zero, and a clock at or before the deadline. *)
Definition current_price (now : DateTime) (self : TicketTypeRow.t)
    : Decimal :=
  match early_bird_until self, early_bird_price self with
  | Some until, Some early =>
      if decimal_truthy early && (now <=? until) then early else price self
  | _, _ => price self
  end.

(** [TicketType.total_price] *)
Definition total_price (now : DateTime) (self : TicketTypeRow.t) : Decimal :=
  let base_price := current_price now self in
  let price_with_fee := (base_price + service_fee self)%Q in
  let tax_amount := (price_with_fee * (tax_percentage self / 100))%Q in
  (price_with_fee + tax_amount)%Q.

(** [TicketType.gross_revenue] *)
Definition gross_revenue (now : DateTime) (self : TicketTypeRow.t)
    : Decimal :=
  (inject_Z (TicketType.sold_count (counters self)) * current_price now self)%Q.

(** [TicketType.update_sale_status] *)
Definition update_sale_status (now : DateTime) (self : TicketTypeRow.t)
    : TicketTypeRow.t :=
  let new_status :=
    if negb (is_active self) then TicketType.ended
    else if tickets_models.available_count (counters self) =? 0
         then TicketType.sold_out
    else if now <? sale_starts self then TicketType.not_started
    else if sale_ends self <? now then TicketType.ended
    else TicketType.on_sale in
  with_counters (TicketType.with_sale_status new_status (counters self)) self.

(** The three ledger operations on a full row. *)
Definition reserve_tickets (q : Z) (self : TicketTypeRow.t)
    : TicketTypeRow.t * bool :=
  let '(c, ok) := tickets_models.reserve_tickets q (counters self) in
  (with_counters c self, ok).

Definition release_reservation (q : Z) (self : TicketTypeRow.t)
    : TicketTypeRow.t :=
  with_counters (tickets_models.release_reservation q (counters self)) self.

Definition sell_tickets (q : Z) (self : TicketTypeRow.t)
    : TicketTypeRow.t * bool :=
  let '(c, ok) := tickets_models.sell_tickets q (counters self) in
  (with_counters c self, ok).

End TicketSale.

(** ** [tickets/models.py]: transfer and refund eligibility of a ticket *)

Module TicketTransfers.

(** The transfer columns of a ticket. *)
Record Columns := mkColumns {
  transfer_count : Z;
  last_transfer_date : option DateTime;
  transfer_fee_paid : Decimal
}.

(** A [TicketTransfer] row of the ticket. *)
Record TicketTransfer := mkTransfer {
  from_user : UserId;
  to_user : UserId;
  transfer_fee : Decimal
}.

Definition with_current_holder (v : UserId) (x : Ticket.t) : Ticket.t :=
  Ticket.mk (Ticket.ticket_type x) (Ticket.event x) (Ticket.original_buyer x)
    v (Ticket.booking x) (Ticket.purchase_price x) (Ticket.service_fee_paid x)
    (Ticket.tax_paid x) (Ticket.total_paid x) (Ticket.currency x)
    (Ticket.seat_number x) (Ticket.row_number x) (Ticket.section x)
    (Ticket.status x) (Ticket.is_checked_in x) (Ticket.check_in_time x)
    (Ticket.check_in_location x) (Ticket.checked_in_by x)
    (Ticket.holder_name x) (Ticket.holder_email x) (Ticket.holder_phone x)
    (Ticket.expires_at x).

(** [Ticket.is_transferable]; [row] is [self.ticket_type] and
    [start_date] is [self.event.start_date]. *)
Definition is_transferable (now : DateTime) (row : TicketTypeRow.t)
    (start_date : DateTime) (self : Ticket.t) : bool :=
  bool_decide (Ticket.status self = Ticket.active)
  && TicketTypeRow.is_transferable row
  && negb (Ticket.is_checked_in self)
  && (now <? start_date).

(** [Ticket.is_refundable] *)
Definition is_refundable (now : DateTime) (row : TicketTypeRow.t)
    (start_date : DateTime) (self : Ticket.t) : bool :=
  if negb (TicketTypeRow.is_refundable row) || Ticket.is_checked_in self
  then false
  else match TicketTypeRow.refund_deadline row with
       | Some deadline => now <=? deadline
       | None => timedelta_hours 24 <? start_date - now
       end.

(** [Ticket.transfer_to]: the ticket, its transfer columns, its
    [TicketTransfer] rows and the returned flag. *)
Definition transfer_to (now : DateTime) (new_holder : UserId)
    (fee : Decimal) (row : TicketTypeRow.t) (start_date : DateTime)
    (self : Ticket.t) (cols : Columns) (log : list TicketTransfer)
    : Ticket.t * Columns * list TicketTransfer * bool :=
  if is_transferable now row start_date self then
    let old_holder := Ticket.current_holder self in
    (with_current_holder new_holder self,
     mkColumns (transfer_count cols + 1) (Some now)
               (transfer_fee_paid cols + fee)%Q,
     log ++ [mkTransfer old_holder new_holder fee],
     true)
  else (self, cols, log, false).

End TicketTransfers.

(** ** [bookings/models.py]: expiry, refundability and totals *)

Module BookingChecks.

(** [Booking.is_expired] *)
Definition is_expired (now : DateTime) (self : Booking.t) : bool :=
  match Booking.booking_expires_at self with
  | Some expires => expires <? now
  | None => false
  end.

(** [Booking.total_tickets] over [self.items.all()]. *)
Definition total_tickets (items : list BookingItem.t) : Z :=
  foldr (fun item acc => BookingItem.quantity item + acc) 0 items.

(** [Booking.is_refundable]; [held] is [self.tickets.all()], each ticket
    with its ticket type, and [start_date] is [self.event.start_date]. *)
Definition is_refundable (now : DateTime) (self : Booking.t)
    (start_date : DateTime) (held : list (Ticket.t * TicketTypeRow.t))
    : bool :=
  if negb (bool_decide (Booking.status self = Booking.paid)
           || bool_decide (Booking.status self = Booking.confirmed))
  then false
  else if negb (existsb (fun h => TicketTypeRow.is_refundable (snd h)) held)
  then false
  else
    forallb
      (fun h =>
         match TicketTypeRow.refund_deadline (snd h) with
         | Some deadline => negb (deadline <? now)
         | None => negb (start_date - now <? timedelta_hours 24)
         end) held.

(** [Booking.can_be_transferred] *)
Definition can_be_transferred (now : DateTime) (start_date : DateTime)
    (held : list (Ticket.t * TicketTypeRow.t)) : bool :=
  existsb
    (fun h => TicketTransfers.is_transferable now (snd h) start_date (fst h))
    held.

End BookingChecks.

Module BookingTotals.

(** The three totals that [BookingItem.calculate_totals] stores. *)
Record ItemTotals := mkItemTotals {
  total_price : Decimal;
  item_service_fee_total : Decimal;
  item_tax_total : Decimal
}.

(** [BookingItem.calculate_totals] *)
Definition item_calculate_totals (item : BookingItem.t) : ItemTotals :=
  mkItemTotals
    (BookingItem.unit_price item * inject_Z (BookingItem.quantity item))%Q
    (BookingItem.service_fee_per_ticket item
     * inject_Z (BookingItem.quantity item))%Q
    (BookingItem.tax_per_ticket item * inject_Z (BookingItem.quantity item))%Q.

(** [BookingItem.grand_total] *)
Definition grand_total (totals : ItemTotals) : Decimal :=
  (total_price totals + item_service_fee_total totals
   + item_tax_total totals)%Q.

(** The pricing columns of a booking. *)
Record t := mk {
  subtotal : Decimal;
  service_fee_total : Decimal;
  tax_total : Decimal;
  discount_amount : Decimal;
  total_amount : Decimal
}.

(** [sum(... for item in self.items.all())] *)
Definition sum_of (f : ItemTotals -> Decimal) (items : list ItemTotals)
    : Decimal :=
  foldl (fun acc i => (acc + f i)%Q) 0%Q items.

(** [Booking.calculate_totals]; [items] are the stored totals of the
    booking's items.  [discount_amount] is read, not assigned. *)
Definition calculate_totals (items : list ItemTotals) (self : t) : t :=
  let sub := sum_of total_price items in
  let fees := sum_of item_service_fee_total items in
  let tax := sum_of item_tax_total items in
  let subtotal_after_discount := (sub - discount_amount self)%Q in
  let total_before_fees :=
    if Qlt_le_dec 0 subtotal_after_discount
    then subtotal_after_discount else 0%Q in
  mk sub fees tax (discount_amount self) (total_before_fees + fees + tax)%Q.

End BookingTotals.

(** ** [payments/models.py]: expiry, sequences of payment operations and
    settlement *)

Module PaymentWorkflow.

(** [Payment.is_overdue] *)
Definition is_overdue (now : DateTime) (self : Payment.t) : bool :=
  match Payment.expires_at self with
  | Some expires =>
      if bool_decide (Payment.status self = Payment.pending)
      then expires <? now else false
  | None => false
  end.

(** The payment and its booking. *)
Record State := mk {
  payment : Payment.t;
  booking : Booking.t
}.

Inductive Op :=
| MarkCompleted (gateway_transaction_id : option string)
                (gateway_response : option JsonDict)
| MarkFailed (failure_reason failure_code : string)
| Retry.

(** One operation at clock reading [now]; the returned flag is dropped. *)
Definition step (now : DateTime) (op : Op) (s : State) : State :=
  match op with
  | MarkCompleted g r =>
      let '(p, b, _) :=
        payments_models.mark_completed now g r (payment s) (booking s) in
      mk p b
  | MarkFailed reason code =>
      mk (fst (payments_models.mark_failed now reason code (payment s)))
         (booking s)
  | Retry =>
      mk (fst (payments_models.retry_payment now (payment s) (booking s)))
         (booking s)
  end.

Definition run (ops : list (DateTime * Op)) (s : State) : State :=
  foldl (fun s '(now, op) => step now op s) s ops.

(** The number of [Retry] operations of a sequence that succeed. *)
Fixpoint successful_retries (ops : list (DateTime * Op)) (s : State) : Z :=
  match ops with
  | [] => 0
  | (now, op) :: rest =>
      (match op with
       | Retry =>
           if snd (payments_models.retry_payment now (payment s) (booking s))
           then 1 else 0
       | _ => 0
       end) + successful_retries rest (step now op s)
  end.

(** The statuses that none of the three operations can leave. *)
Definition final_status (st : Payment.Status) : Prop :=
  st = Payment.completed \/ st = Payment.refunded \/
  st = Payment.partially_refunded \/ st = Payment.disputed.

End PaymentWorkflow.

Module Settlements.

(** The settlement columns of a payment. *)
Record Columns := mkColumns {
  is_settled : bool;
  settled_amount : Decimal;
  settlement_date : option DateTime;
  settlement_reference : string
}.

(** [STATUS_CHOICES] of [Settlement] *)
Inductive Status :=
| pending | processing | completed | failed | disputed.

Global Instance Status_eq_dec : EqDecision Status.
Proof. solve_decision. Defined.

Record Settlement := mkSettlement {
  payment : Z;
  organizer : UserId;
  amount : Decimal;
  currency : string;
  reference : string;
  status : Status;
  settlement_fee : Decimal;
  net_settlement_amount : option Decimal;
  processed_at : option DateTime;
  processed_by : option UserId
}.

(** [Payment.calculate_settlement_amount]: the amount less a commission
    of 5% and the fees, not below zero. *)
Definition calculate_settlement_amount (self : Payment.t) : Decimal :=
  let commission_amount := (Payment.amount self * (5 # 100))%Q in
  let settlement_amount :=
    (Payment.amount self - commission_amount
     - payments_models.total_fees self)%Q in
  if Qlt_le_dec 0 settlement_amount then settlement_amount else 0%Q.

(** The body of [Settlement.save] before [super().save]. *)
Definition save_settlement (s : Settlement) : Settlement :=
  if opt_decimal_truthy (net_settlement_amount s) then s
  else mkSettlement (payment s) (organizer s) (amount s) (currency s)
         (reference s) (status s) (settlement_fee s)
         (Some (amount s - settlement_fee s)%Q) (processed_at s)
         (processed_by s).


(** [Settlement.complete_settlement] *)
Definition complete_settlement (now : DateTime)
    (by_user : option UserId) (s : Settlement) : Settlement * bool :=
  if bool_decide (status s = pending) || bool_decide (status s = processing)
  then (save_settlement
          (mkSettlement (payment s) (organizer s) (amount s) (currency s)
             (reference s) completed (settlement_fee s)
             (net_settlement_amount s) (Some now) by_user), true)
  else (s, false).

End Settlements.

(** ** [payments/models.py]: validity and usage of a discount code *)

Module DiscountUsage.

(** [USAGE_TYPES] *)
Inductive UsageType :=
| unlimited | limited | single_use | one_time.

Global Instance UsageType_eq_dec : EqDecision UsageType.
Proof. solve_decision. Defined.

(** The validity and usage columns of a discount code. *)
Record t := mk {
  is_active : bool;
  valid_from : DateTime;
  valid_until : DateTime;
  usage_type : UsageType;
  usage_limit : option Z;
  times_used : Z
}.

(** Truth value of [DiscountCode.is_usage_limit_reached], whose result is
    [self.usage_limit and self.times_used >= self.usage_limit]. *)
Definition is_usage_limit_reached (self : t) : bool :=
  if bool_decide (usage_type self = unlimited) then false
  else match usage_limit self with
       | Some lim => if lim =? 0 then false else lim <=? times_used self
       | None => false
       end.

(** [DiscountCode.is_valid] *)
Definition is_valid (now : DateTime) (self : t) : bool :=
  is_active self
  && (valid_from self <=? now) && (now <=? valid_until self)
  && negb (is_usage_limit_reached self).

(** [DiscountCode.remaining_uses] *)
Definition remaining_uses (self : t) : option Z :=
  if bool_decide (usage_type self = unlimited) then None
  else match usage_limit self with
       | Some lim =>
           if lim =? 0 then None else Some (Z.max 0 (lim - times_used self))
       | None => None
       end.

(** [DiscountCode.increment_usage] *)
Definition increment_usage (self : t) : t :=
  mk (is_active self) (valid_from self) (valid_until self) (usage_type self)
     (usage_limit self) (times_used self + 1).

End DiscountUsage.

(** ** [bookings/models.py]: the waitlist *)

Module WaitlistEntry.

Record t := mk {
  event : Z;
  ticket_type : Z;
  user : UserId;
  quantity_requested : Z;
  is_active : bool;
  position : Z;
  notified_at : option DateTime;
  expires_at : option DateTime
}.

End WaitlistEntry.

Module Waitlist.

Import WaitlistEntry.

(** [WaitlistEntry.notify_availability]: the entry gets a two-hour
    window. *)
Definition notify_availability (now : DateTime) (self : WaitlistEntry.t)
    : WaitlistEntry.t * bool :=
  if is_active self && bool_decide (notified_at self = None)
  then (mk (event self) (ticket_type self) (user self)
           (quantity_requested self) (is_active self) (position self)
           (Some now) (Some (now + timedelta_hours 2)), true)
  else (self, false).

(** [WaitlistEntry.deactivate] *)
Definition deactivate (self : WaitlistEntry.t) : WaitlistEntry.t :=
  mk (event self) (ticket_type self) (user self) (quantity_requested self)
     false (position self) (notified_at self) (expires_at self).

(** The filter shared by [notify_waitlist] and [get_next_in_line]. *)
Definition eligible (tt : Z) (available_quantity : Z)
    (e : WaitlistEntry.t) : bool :=
  bool_decide (ticket_type e = tt)
  && is_active e
  && bool_decide (notified_at e = None)
  && (quantity_requested e <=? available_quantity).

(** [ORDER BY position] on rows paired with their place in the table. *)
Definition by_position (a b : nat * WaitlistEntry.t) : Prop :=
  position (snd a) <= position (snd b).

Global Instance by_position_dec (a b : nat * WaitlistEntry.t)
  : Decision (by_position a b).
Proof. unfold by_position. apply _. Defined.

Global Instance by_position_trans : Transitive by_position.
Proof. unfold by_position. intros x y z. lia. Qed.

Global Instance by_position_total : Total by_position.
Proof. unfold by_position. intros x y. lia. Qed.

(** The rows that [notify_waitlist] fetches: the eligible ones, by
    position (rows of equal position in table order), at most five. *)
Definition fetched (tt : Z) (available_quantity : Z)
    (table : list WaitlistEntry.t) : list (nat * WaitlistEntry.t) :=
  take 5
    (merge_sort by_position
       (filter (fun r => eligible tt available_quantity (snd r) = true)
               (imap (fun i e => (i, e)) table))).

(** [WaitlistEntry.notify_waitlist]: the table after each fetched entry
    was notified. *)
Definition notify_waitlist (now : DateTime) (tt : Z)
    (available_quantity : Z) (table : list WaitlistEntry.t)
    : list WaitlistEntry.t :=
  imap
    (fun i e =>
       if bool_decide (i ∈ (fetched tt available_quantity table).*1)
       then fst (notify_availability now e) else e)
    table.

(** [WaitlistEntry.get_next_in_line]: the first row of the filter in the
    model's default order (by position; the table is in creation order). *)
Definition get_next_in_line (tt : Z) (quantity : Z)
    (table : list WaitlistEntry.t) : option WaitlistEntry.t :=
  snd <$> head
    (merge_sort by_position
       (filter (fun r => eligible tt quantity (snd r) = true)
               (imap (fun i e => (i, e)) table))).

(** The errors of [WaitlistCreateSerializer]: the three
    [ValidationError]s of [validate] and the violation of
    [unique_together = ['event', 'ticket_type', 'user']] on insert. *)
Inductive JoinError :=
| WrongEvent | AlreadyOnWaitlist | TicketsStillAvailable | NotUnique.

(** [WaitlistCreateSerializer.validate]; [tt_event] and [available] are
    the event and the available count of the requested ticket type. *)
Definition validate (ev tt : Z) (request_user : UserId)
    (tt_event : Z) (available : Z) (table : list WaitlistEntry.t)
    : option JoinError :=
  if negb (bool_decide (tt_event = ev)) then Some WrongEvent
  else if existsb
            (fun e => bool_decide (event e = ev)
                      && bool_decide (ticket_type e = tt)
                      && bool_decide (user e = request_user)
                      && is_active e) table
  then Some AlreadyOnWaitlist
  else if 0 <? available then Some TicketsStillAvailable
  else None.




End Waitlist.

(** ** [events/models.py]: the dates and the sales of an event *)

Module Event.

Record t := mk {
  start_date : DateTime;
  end_date : DateTime;
  ticket_sales_start : option DateTime;
  ticket_sales_end : option DateTime
}.

End Event.

Module events_models.

Import Event.




(** [sum(... for tt in self.ticket_types.all())] *)
Definition sum_over (f : TicketType.t -> Z) (rows : list TicketType.t) : Z :=
  foldl (fun acc r => acc + f r) 0 rows.

(** [Event.is_sold_out]; [rows] is [self.ticket_types.all()]. *)
Definition is_sold_out (rows : list TicketType.t) : bool :=
  let total_tickets := sum_over TicketType.quantity rows in
  let sold_tickets := sum_over TicketType.sold_count rows in
  if 0 <? total_tickets then total_tickets <=? sold_tickets else false.

(** [Event.tickets_available] *)
Definition tickets_available (now : DateTime) (self : Event.t) : bool :=
  match ticket_sales_start self, ticket_sales_end self with
  | Some starts, Some ends => (starts <=? now) && (now <=? ends)
  | _, _ => true
  end.

End events_models.

(** ** [bookings/views.py]: the cancel and confirm actions *)

Module booking_views.

(** A [BookingStatusHistory] row. *)
Record History := mkHistory {
  booking : Z;
  previous_status : string;
  new_status : string;
  changed_by : option UserId;
  reason : string;
  automated : bool
}.

(** The stored value of a booking status. *)
Definition status_value (s : Booking.Status) : string :=
  match s with
  | Booking.pending => "pending"
  | Booking.confirmed => "confirmed"
  | Booking.paid => "paid"
  | Booking.cancelled => "cancelled"
  | Booking.expired => "expired"
  | Booking.refunded => "refunded"
  | Booking.partially_refunded => "partially_refunded"
  end.

(** [BookingCancelView.post] for a booking that the lookup found: the
    booking, the tables, the history table and the HTTP status. *)
Definition cancel_post (now : DateTime) (request_user : UserId)
    (request_reason : option string) (b : Booking.t) (db : Db)
    (history : list History)
    : Booking.t * Db * list History * Z :=
  let reason := default "Cancelled by customer" request_reason in
  let '(b1, db1, ok) :=
    bookings_models.cancel_booking now reason (Some request_user) b db in
  if ok then
    (b1, db1,
     history ++ [mkHistory (Booking.id b1) (status_value (Booking.status b1))
                   "cancelled" (Some request_user) reason false],
     200)
  else (b1, db1, history, 400).

(** The [confirm_booking] view after its permission check. *)
Definition confirm_post (now : DateTime) (request_user : UserId)
    (b : Booking.t) (history : list History)
    : Booking.t * list History * Z :=
  let '(b1, ok) := bookings_models.confirm_booking now b in
  if ok then
    (b1,
     history ++ [mkHistory (Booking.id b1) "pending" "confirmed"
                   (Some request_user) "Manually confirmed" false],
     200)
  else (b1, history, 400).

End booking_views.

(** ** [payments/models.py]: the audit trail of a refund *)

Module RefundAudit.

(** The timestamps that the status of a refund implies: a pending refund
    is not completed, a processing or completed one was approved, and a
    completed one has its completion time. *)
Definition audited (r : Refund.t) : Prop :=
  (Refund.status r = Refund.pending -> Refund.completed_at r = None) /\
  (Refund.status r = Refund.processing \/ Refund.status r = Refund.completed ->
   Refund.approved_at r <> None) /\
  (Refund.status r = Refund.completed -> Refund.completed_at r <> None).

End RefundAudit.

(** * Properties *)

(** ** Inventory ledger *)

Section Ledger.

Import TicketType tickets_models.

Lemma available_count_nonneg (s : TicketType.t) : 0 <= available_count s.
Proof. unfold available_count. lia. Qed.

(** Under the conservation invariant the clamp of [available_count] is
    idle. *)
Lemma available_count_conserved (s : TicketType.t) :
  conserved s ->
  available_count s = quantity s - sold_count s - reserved_count s.
Proof. unfold conserved, available_count. lia. Qed.

Lemma reserve_tickets_conserved (q : Z) (s : TicketType.t) :
  conserved s -> conserved (fst (reserve_tickets q s)).
Proof.
  intros Hc. unfold reserve_tickets.
  destruct (Z.leb_spec q (available_count s)) as [Hq|Hq]; simpl; [|exact Hc].
  rewrite (available_count_conserved s Hc) in Hq.
  unfold conserved in *; simpl. lia.
Qed.

Lemma sell_tickets_conserved (q : Z) (s : TicketType.t) :
  conserved s -> conserved (fst (sell_tickets q s)).
Proof.
  intros Hc. unfold sell_tickets.
  destruct (Z.leb_spec q (available_count s + reserved_count s)) as [Hq|Hq];
    simpl; [|exact Hc].
  rewrite (available_count_conserved s Hc) in Hq.
  destruct (Z.leb_spec q (reserved_count s)) as [Hr|Hr];
    match goal with
    | |- context [if ?c then _ else _] => destruct c
    end; unfold conserved in *; simpl; lia.
Qed.

Lemma release_reservation_conserved (q : Z) (s : TicketType.t) :
  0 <= reserved_count s -> 0 <= q ->
  conserved s -> conserved (release_reservation q s).
Proof.
  unfold conserved, release_reservation; simpl. lia.
Qed.

Lemma release_reservation_nonneg (q : Z) (s : TicketType.t) :
  0 <= reserved_count (release_reservation q s).
Proof. unfold release_reservation; simpl. lia. Qed.

(** The counters stay non-negative under operations with non-negative
    quantities. *)
Lemma step_wf (op : InventoryLedger.Op) (s : TicketType.t) :
  0 <= InventoryLedger.amount_of op -> wf s -> wf (InventoryLedger.step op s).
Proof.
  intros Hq (Hn & Hs & Hr). destruct op as [q|q|q]; simpl in *.
  - unfold reserve_tickets.
    destruct (q <=? available_count s); unfold wf; simpl; lia.
  - unfold release_reservation, wf; simpl. lia.
  - unfold sell_tickets.
    destruct (q <=? available_count s + reserved_count s);
      [|unfold wf; simpl; lia].
    destruct (Z.leb_spec q (reserved_count s));
      match goal with
      | |- context [if ?c then _ else _] => destruct c
      end; unfold wf; simpl; lia.
Qed.

Lemma step_conserved (op : InventoryLedger.Op) (s : TicketType.t) :
  0 <= InventoryLedger.amount_of op -> wf s -> conserved s ->
  conserved (InventoryLedger.step op s).
Proof.
  intros Hq (Hn & Hs & Hr) Hc. destruct op as [q|q|q]; simpl in *.
  - by apply reserve_tickets_conserved.
  - by apply release_reservation_conserved.
  - by apply sell_tickets_conserved.
Qed.

(** At all times: the invariant holds after every sequence of ledger
    operations with non-negative quantities. *)
Lemma run_conserved (ops : list InventoryLedger.Op) (s : TicketType.t) :
  Forall (fun op => 0 <= InventoryLedger.amount_of op) ops ->
  wf s -> conserved s ->
  wf (InventoryLedger.run ops s) /\ conserved (InventoryLedger.run ops s).
Proof.
  unfold InventoryLedger.run.
  revert s. induction ops as [|op ops IH]; intros s Hops Hwf Hc; simpl.
  - split; assumption.
  - inversion Hops as [|? ? Hop Hrest]; subst.
    apply IH; [assumption| by apply step_wf | by apply step_conserved].
Qed.

(** C1. For a ticket type whose counters satisfy
    [sold_count + reserved_count <= quantity], each of [reserve_tickets],
    [release_reservation] and [sell_tickets], called with a quantity [q]
    (a non-negative number of tickets), leaves a ticket type that
    satisfies it again, and after [release_reservation] the reserved count
    is at least zero. *)
Theorem C1_ledger_conservation (q : Z) (s : TicketType.t) :
  wf s -> 0 <= q -> conserved s ->
  conserved (fst (reserve_tickets q s)) /\
  conserved (release_reservation q s) /\
  conserved (fst (sell_tickets q s)) /\
  0 <= reserved_count (release_reservation q s).
Proof.
  intros (Hn & Hs & Hr) Hq Hc. repeat split.
  - by apply reserve_tickets_conserved.
  - by apply release_reservation_conserved.
  - by apply sell_tickets_conserved.
  - apply release_reservation_nonneg.
Qed.

Lemma C1_ledger_conservation_witness :
  let s := TicketType.mk 10 4 5 on_sale in
  conserved (fst (reserve_tickets 1 s)) /\
  conserved (release_reservation 1 s) /\
  conserved (fst (sell_tickets 1 s)) /\
  0 <= reserved_count (release_reservation 1 s).
Proof.
  apply (C1_ledger_conservation 1 (TicketType.mk 10 4 5 on_sale));
    unfold wf, conserved; simpl; lia.
Defined.

(** C5. [reserve_tickets(q)] returns success exactly when
    [q <= available_count]; on success [reserved_count] has grown by
    exactly [q] and nothing else has changed; on failure (the [False]
    that stands for insufficient inventory) the ticket type is unchanged. *)
Theorem C5_reserve_all_or_nothing (q : Z) (s : TicketType.t) :
  (snd (reserve_tickets q s) = true <-> q <= available_count s) /\
  (snd (reserve_tickets q s) = true ->
     reserved_count (fst (reserve_tickets q s)) = reserved_count s + q /\
     sold_count (fst (reserve_tickets q s)) = sold_count s /\
     quantity (fst (reserve_tickets q s)) = quantity s /\
     sale_status (fst (reserve_tickets q s)) = sale_status s) /\
  (snd (reserve_tickets q s) = false -> fst (reserve_tickets q s) = s) /\
  available_count s = Z.max 0 (quantity s - sold_count s - reserved_count s).
Proof.
  unfold reserve_tickets.
  destruct (Z.leb_spec q (available_count s)) as [Hq|Hq]; simpl.
  - repeat split; auto; discriminate.
  - repeat split; auto; try discriminate. lia.
Qed.

Lemma C5_reserve_all_or_nothing_witness :
  let s := TicketType.mk 10 4 5 on_sale in
  reserved_count (fst (reserve_tickets 1 s)) = 6 /\
  fst (reserve_tickets 2 s) = s.
Proof.
  pose proof (C5_reserve_all_or_nothing 1 (TicketType.mk 10 4 5 on_sale))
    as (_ & Hok & _).
  pose proof (C5_reserve_all_or_nothing 2 (TicketType.mk 10 4 5 on_sale))
    as (_ & _ & Hfail & _).
  split.
  - apply Hok. reflexivity.
  - apply Hfail. reflexivity.
Defined.

End Ledger.

(** ** Booking state machine *)

Section BookingLifecycle.

Import Booking bookings_models.

(** [save] changes nothing once the booking has left [pending]. *)
Lemma booking_save_not_pending (now : DateTime) (b : Booking.t) :
  status b <> pending -> save now b = b.
Proof.
  intros Hs. unfold save. destruct (booking_expires_at b); [reflexivity|].
  case_bool_decide; [contradiction|reflexivity].
Qed.

(** [mark_as_paid] looks at [payment_status] only. *)
Lemma mark_as_paid_pending (now : DateTime) (b : Booking.t) :
  payment_status b = pay_pending \/ payment_status b = pay_processing ->
  mark_as_paid now b = (with_status paid (with_payment_status pay_paid b), true).
Proof.
  intros Hp. unfold mark_as_paid.
  replace (bool_decide (payment_status b = pay_pending)
           || bool_decide (payment_status b = pay_processing)) with true.
  - rewrite booking_save_not_pending; [reflexivity | simpl; discriminate].
  - destruct Hp as [-> | ->]; reflexivity.
Qed.

Lemma mark_as_paid_not_pending (now : DateTime) (b : Booking.t) :
  payment_status b <> pay_pending -> payment_status b <> pay_processing ->
  mark_as_paid now b = (b, false).
Proof.
  intros H1 H2. unfold mark_as_paid.
  rewrite !bool_decide_eq_false_2 by assumption. reflexivity.
Qed.

(** From a terminal state [confirm_booking], [cancel_booking] and
    [expire_booking] return [False] and change nothing. *)
Lemma terminal_confirm_cancel_expire (now : DateTime) (reason : string)
    (by_user : option UserId) (b : Booking.t) (db : Db) :
  terminal (status b) ->
  confirm_booking now b = (b, false) /\
  cancel_booking now reason by_user b db = (b, db, false) /\
  expire_booking now b db = (b, db, false).
Proof.
  unfold confirm_booking, cancel_booking, expire_booking.
  intros [Hs | [Hs | Hs]]; rewrite Hs; repeat split; reflexivity.
Qed.

(** [cancel_booking] never touches the ticket type rows. *)
Lemma cancel_booking_ticket_types (now : DateTime) (reason : string)
    (by_user : option UserId) (b : Booking.t) (db : Db) :
  ticket_types (snd (fst (cancel_booking now reason by_user b db)))
  = ticket_types db.
Proof.
  unfold cancel_booking.
  destruct (bool_decide (status b = pending) || bool_decide (status b = confirmed)
            || bool_decide (status b = paid)); reflexivity.
Qed.

(** [mark_as_paid] has no access to the tables: the tickets of a world are
    the same before and after. *)
Lemma mark_as_paid_tickets (now : DateTime) (w : Checkout.World) :
  tickets (Checkout.db (fst (Checkout.mark_as_paid now w)))
  = tickets (Checkout.db w).
Proof.
  unfold Checkout.mark_as_paid.
  destruct (mark_as_paid now (Checkout.booking w)); reflexivity.
Qed.

(** [create_tickets] returns [quantity] tickets. *)
Lemma create_tickets_length (item : BookingItem.t) (b : Booking.t) (db : Db) :
  Z.of_nat (length (fst (create_tickets item b db)))
  = Z.max 0 (BookingItem.quantity item).
Proof.
  unfold create_tickets; simpl.
  rewrite length_fmap, length_seq. lia.
Qed.


(** C3. A pending booking that was cancelled is in a terminal state with
    [payment_status] still pending; [mark_as_paid] then succeeds and moves
    it from [cancelled] to [paid], and so does the [mark_completed] of its
    payment when the gateway reports after the cancellation. *)
Theorem C3_mark_as_paid_leaves_terminal_state :
  let b1 :=
    fst (fst (cancel_booking 30 "Cancelled by customer" (Some 42)
                Demo.booking Demo.db)) in
  let w1 :=
    fst (Checkout.cancel_booking 30 "Cancelled by customer" (Some 42)
           Demo.world) in
  status b1 = cancelled /\
  terminal (status b1) /\
  payment_status b1 = pay_pending /\
  snd (mark_as_paid 60 b1) = true /\
  status (fst (mark_as_paid 60 b1)) = paid /\
  status (Checkout.booking w1) = cancelled /\
  status (Checkout.booking
            (fst (Checkout.mark_completed 60 (Some "GW-1") None w1))) = paid.
Proof.
  vm_compute. repeat split; try reflexivity. left; reflexivity.
Qed.

(** C4. On the demo checkout, [cancel_booking] succeeds on the pending
    booking and leaves the two tickets of ticket type 7 reserved;
    [expire_booking] on the same booking releases them. *)
Theorem C4_cancel_booking_keeps_reservation :
  let r := cancel_booking 30 "Cancelled by customer" (Some 42)
             Demo.booking Demo.db in
  let e := expire_booking 30 Demo.booking Demo.db in
  snd r = true /\
  status (fst (fst r)) = cancelled /\
  TicketType.reserved_count <$> ticket_types (snd (fst r)) !! 7 = Some 2 /\
  snd e = true /\
  TicketType.reserved_count <$> ticket_types (snd (fst e)) !! 7 = Some 0.
Proof. vm_compute. repeat split; reflexivity. Qed.

End BookingLifecycle.

(** ** Payment orchestrator *)

Section PaymentLifecycle.

Import Payment payments_models.

(** [save_payment] assigns [net_amount] and [expires_at] only. *)
Ltac save_payment_keeps :=
  unfold save_payment;
  match goal with
  | |- context [opt_decimal_truthy ?n] => destruct (opt_decimal_truthy n)
  end; simpl;
  match goal with
  | |- context [expires_at ?p] => destruct (expires_at p)
  end; simpl; try reflexivity; case_bool_decide; reflexivity.

Lemma save_payment_status (now : DateTime) (p : Payment.t) :
  status (save_payment now p) = status p.
Proof. save_payment_keeps. Qed.

Lemma save_payment_retry_count (now : DateTime) (p : Payment.t) :
  retry_count (save_payment now p) = retry_count p.
Proof. save_payment_keeps. Qed.


Lemma is_pending_spec (p : Payment.t) :
  is_pending p = true <-> status p = pending \/ status p = processing.
Proof.
  unfold is_pending. rewrite orb_true_iff, !bool_decide_eq_true. tauto.
Qed.

Lemma is_failed_spec (p : Payment.t) :
  is_failed p = true <->
  status p = failed \/ status p = cancelled \/ status p = expired.
Proof.
  unfold is_failed. rewrite !orb_true_iff, !bool_decide_eq_true. tauto.
Qed.

(** A successful [mark_completed] leaves the payment [completed]. *)
Lemma mark_completed_status (now : DateTime) (g : option string)
    (r : option JsonDict) (p : Payment.t) (b : Booking.t) :
  is_pending p = true ->
  status (fst (fst (mark_completed now g r p b))) = completed /\
  snd (mark_completed now g r p b) = true.
Proof.
  intros Hp. unfold mark_completed. rewrite Hp. simpl.
  rewrite save_payment_status. split; [|reflexivity].
  destruct r as [resp|]; [destruct (dict_truthy resp)|];
    (destruct g as [txn|]; [destruct (str_truthy txn)|]); reflexivity.
Qed.

(** [mark_completed] on a payment that is neither pending nor processing
    returns [False] and changes nothing. *)
Lemma mark_completed_not_pending (now : DateTime) (g : option string)
    (r : option JsonDict) (p : Payment.t) (b : Booking.t) :
  is_pending p = false -> mark_completed now g r p b = (p, b, false).
Proof. intros Hp. unfold mark_completed. rewrite Hp. reflexivity. Qed.

(** C7. A first [mark_completed] on a payment that is pending or
    processing succeeds and sets its status to [completed]; a second call,
    whatever its arguments, returns [False] and leaves the payment, the
    booking and every table as the first call left them; in particular
    the tickets of the booking are those that existed before. *)
Theorem C7_mark_completed_idempotent (now1 now2 : DateTime)
    (g1 g2 : option string) (r1 r2 : option JsonDict) (w : Checkout.World) :
  status (Checkout.payment w) = pending \/
  status (Checkout.payment w) = processing ->
  let w1 := fst (Checkout.mark_completed now1 g1 r1 w) in
  snd (Checkout.mark_completed now1 g1 r1 w) = true /\
  status (Checkout.payment w1) = completed /\
  Checkout.mark_completed now2 g2 r2 w1 = (w1, false) /\
  tickets (Checkout.db w1) = tickets (Checkout.db w).
Proof.
  intros Hp. apply is_pending_spec in Hp.
  destruct w as [p b d]; simpl in *.
  destruct (mark_completed_status now1 g1 r1 p b Hp) as [Hst Hok].
  unfold Checkout.mark_completed; simpl.
  destruct (mark_completed now1 g1 r1 p b) as [[p1 b1] ok1] eqn:E1;
    simpl in *.
  repeat split; try assumption.
  rewrite mark_completed_not_pending; [reflexivity|].
  unfold is_pending. rewrite Hst. reflexivity.
Qed.

Lemma C7_mark_completed_idempotent_witness :
  let w1 := fst (Checkout.mark_completed 60 (Some "GW-1") None Demo.world) in
  snd (Checkout.mark_completed 60 (Some "GW-1") None Demo.world) = true /\
  status (Checkout.payment w1) = completed /\
  Checkout.mark_completed 90 (Some "GW-1") None w1 = (w1, false) /\
  tickets (Checkout.db w1) = tickets (Checkout.db Demo.world).
Proof.
  apply (C7_mark_completed_idempotent 60 90 (Some "GW-1") (Some "GW-1")
           None None Demo.world).
  left. reflexivity.
Defined.

(** [retry_payment] treats [cancelled] and [expired] payments as failed
    ones: a cancelled payment of a pending booking is retried. *)
Lemma C8_retry_cancelled_payment :
  let p := with_status cancelled Demo.payment in
  snd (retry_payment 60 p Demo.booking) = true /\
  status (fst (retry_payment 60 p Demo.booking)) = pending /\
  ~ (snd (retry_payment 60 p Demo.booking) = true -> status p = failed).
Proof.
  vm_compute. repeat split; try reflexivity.
  intros H. specialize (H eq_refl). discriminate.
Qed.

(** C8 (amended). [retry_payment] succeeds exactly when the payment's
    status is failed, cancelled or expired, [retry_count < max_retries]
    and the booking's status is pending; it then sets the status to
    pending and increments [retry_count]; in every other case it returns
    [False] and changes nothing. *)
Theorem C8_retry_payment (now : DateTime) (p : Payment.t) (b : Booking.t) :
  (snd (retry_payment now p b) = true <->
     (status p = failed \/ status p = cancelled \/ status p = expired) /\
     retry_count p < max_retries p /\
     Booking.status b = Booking.pending) /\
  (snd (retry_payment now p b) = true ->
     status (fst (retry_payment now p b)) = pending /\
     retry_count (fst (retry_payment now p b)) = retry_count p + 1) /\
  (snd (retry_payment now p b) = false -> fst (retry_payment now p b) = p).
Proof.
  assert (Hcan : can_retry p b = true <->
            (status p = failed \/ status p = cancelled \/ status p = expired) /\
            retry_count p < max_retries p /\
            Booking.status b = Booking.pending).
  { unfold can_retry.
    rewrite !andb_true_iff, is_failed_spec, Z.ltb_lt, bool_decide_eq_true.
    tauto. }
  unfold retry_payment. destruct (can_retry p b); simpl.
  - repeat split; try (apply Hcan; reflexivity); try discriminate.
    + rewrite save_payment_status. reflexivity.
    + rewrite save_payment_retry_count. reflexivity.
  - repeat split; try discriminate; try reflexivity.
    intros H. apply Hcan in H. discriminate.
Qed.

Lemma C8_retry_payment_witness :
  let p := with_status failed Demo.payment in
  status (fst (retry_payment 60 p Demo.booking)) = pending /\
  retry_count (fst (retry_payment 60 p Demo.booking)) = 1 /\
  fst (retry_payment 60 Demo.payment Demo.booking) = Demo.payment.
Proof.
  pose proof (C8_retry_payment 60 (with_status failed Demo.payment)
                Demo.booking) as (_ & Hok & _).
  pose proof (C8_retry_payment 60 Demo.payment Demo.booking)
    as (_ & _ & Hfail).
  destruct (Hok eq_refl) as [H1 H2].
  split; [exact H1 | split; [exact H2 | exact (Hfail eq_refl)]].
Defined.

End PaymentLifecycle.

(** ** Refunds *)

Section Refunds.

Import payments_models RefundWorkflow.









Lemma sum_amounts_nonneg (rs : list Refund.t) :
  Forall (fun r => (0 <= Refund.refund_amount r)%Q) rs ->
  (0 <= sum_amounts rs)%Q.
Proof.
  induction 1 as [|r rs Hr _ IH]; simpl; [apply Qle_refl|].
  change (0 <= Refund.refund_amount r + sum_amounts rs)%Q.
  unfold Decimal in *. lra.
Qed.





End Refunds.


(** ** Discount codes *)

Section Discounts.

Import DiscountCode payments_models.

Lemma decimal_truthy_neq (d : Decimal) :
  ~ (d == 0)%Q -> decimal_truthy d = true.
Proof.
  intros Hd. unfold decimal_truthy.
  destruct (Qeq_bool d 0) eqn:E; [|reflexivity].
  apply Qeq_bool_iff in E. contradiction.
Qed.

(** A percentage code whose cap is zero is not capped: [Decimal('0')] is
    false in [if self.max_discount_amount]. *)
Lemma C9_zero_cap_not_applied :
  max_discount_amount Demo.ten_percent_zero_cap = Some 0%Q /\
  (calculate_discount Demo.ten_percent_zero_cap 100000 == 10000)%Q /\
  ~ (calculate_discount Demo.ten_percent_zero_cap 100000 <= 0)%Q.
Proof.
  vm_compute. repeat split; try reflexivity.
  intros H. apply H. reflexivity.
Qed.

(** C9 (amended). For every order amount, [calculate_discount] of a
    fixed-amount code never exceeds the amount, and of a percentage code
    whose [max_discount_amount] is set to a non-zero value never exceeds
    that value; for amount 100000 and a 10% code capped at 5000 it
    returns 5000. *)
Theorem C9_discount_bound (c : DiscountCode.t) (order_amount m : Decimal) :
  (discount_type c = fixed_amount ->
     (calculate_discount c order_amount <= order_amount)%Q) /\
  (discount_type c = percentage ->
     max_discount_amount c = Some m -> ~ (m == 0)%Q ->
     (calculate_discount c order_amount <= m)%Q) /\
  (calculate_discount Demo.ten_percent_capped 100000 == 5000)%Q.
Proof.
  repeat split.
  - intros Ht. unfold calculate_discount. rewrite Ht. apply Q.le_min_r.
  - intros Ht Hm Hz. unfold calculate_discount. rewrite Ht, Hm. simpl.
    rewrite (decimal_truthy_neq m Hz). apply Q.le_min_r.
Qed.

Lemma C9_discount_bound_witness :
  (calculate_discount Demo.fixed_2000 1500 <= 1500)%Q /\
  (calculate_discount Demo.ten_percent_capped 100000 <= 5000)%Q.
Proof.
  split.
  - apply (C9_discount_bound Demo.fixed_2000 1500%Q 0%Q). reflexivity.
  - apply (C9_discount_bound Demo.ten_percent_capped 100000%Q 5000%Q).
    + reflexivity.
    + reflexivity.
    + vm_compute. discriminate.
Defined.

End Discounts.

(** ** Check-in *)

Section CheckIn.

Import Ticket tickets_models TicketCheckInSerializer.

Lemma is_valid_spec (now : DateTime) (t : Ticket.t) :
  is_valid now t = true <->
  status t = active /\ is_checked_in t = false /\
  (forall e, expires_at t = Some e -> now <= e).
Proof.
  unfold is_valid.
  rewrite !andb_true_iff, bool_decide_eq_true, negb_true_iff.
  destruct (expires_at t) as [e0|].
  - rewrite Z.leb_le. split.
    + intros [[Hs Hc] He]. repeat split; try assumption.
      intros e [= <-]. exact He.
    + intros (Hs & Hc & He). repeat split; try assumption.
      apply He. reflexivity.
  - split.
    + intros [[Hs Hc] _]. repeat split; try assumption. discriminate.
    + intros (Hs & Hc & _). repeat split; assumption.
Qed.

Lemma check_in_spec (now : DateTime) (location : string)
    (by_user : option UserId) (t : Ticket.t) :
  check_in now location by_user t
  = if is_valid now t
    then (with_check_in now location by_user t, true)
    else (t, false).
Proof.
  unfold check_in. destruct (is_valid now t) eqn:Hv; [|reflexivity].
  apply is_valid_spec in Hv as (_ & -> & _). reflexivity.
Qed.

(** The branch of [validate] for a ticket that was already checked in is
    never taken: such a ticket is not valid, and is rejected first. *)
Lemma validate_not_AlreadyCheckedIn (now : DateTime) (t : Ticket.t)
    (start_date end_date : DateTime) :
  validate now t start_date end_date <> inl AlreadyCheckedIn.
Proof.
  unfold validate. destruct (is_valid now t) eqn:Hv; simpl; [|discriminate].
  apply is_valid_spec in Hv as (_ & -> & _).
  destruct (end_date <? now); [discriminate|].
  destruct (now <? start_date - timedelta_hours 2); discriminate.
Qed.

(** A valid ticket is checked in eight hours before check-in opens. *)
Lemma C10_check_in_before_opening :
  snd (check_in 0 "Gate A" (Some 9) Demo.ticket) = true /\
  ~ (Demo.event_start - timedelta_hours 2 <= 0 <= Demo.event_end) /\
  validate 0 Demo.ticket Demo.event_start Demo.event_end
  = inl EventNotYetOpen.
Proof.
  vm_compute. repeat split; try reflexivity.
  intros [H _]. apply H. reflexivity.
Qed.

(** C10 (amended). [Ticket.check_in] succeeds exactly when the ticket is
    valid (status active, not already checked in, not expired), whatever
    the time of the event; on success [is_checked_in] is true and the
    status is [used], on failure it returns [False] and the ticket is
    unchanged.  The window [[start_date - 2h, end_date]] is checked by
    [TicketCheckInSerializer.validate]: it accepts exactly the valid
    tickets inside the window, and rejects a valid ticket with
    [EventEnded] after [end_date] and with [EventNotYetOpen] before
    [start_date - 2h], and a ticket that is not active or has expired with
    [InvalidTicket]. *)
Theorem C10_check_in (now : DateTime) (location : string)
    (by_user : option UserId) (t : Ticket.t)
    (start_date end_date : DateTime) :
  (snd (check_in now location by_user t) = true <->
     status t = active /\ is_checked_in t = false /\
     (forall e, expires_at t = Some e -> now <= e)) /\
  (snd (check_in now location by_user t) = true ->
     is_checked_in (fst (check_in now location by_user t)) = true /\
     status (fst (check_in now location by_user t)) = used) /\
  (snd (check_in now location by_user t) = false ->
     fst (check_in now location by_user t) = t) /\
  (validate now t start_date end_date = inr t <->
     is_valid now t = true /\
     start_date - timedelta_hours 2 <= now <= end_date) /\
  (is_valid now t = true -> end_date < now ->
     validate now t start_date end_date = inl EventEnded) /\
  (is_valid now t = true -> now <= end_date ->
     now < start_date - timedelta_hours 2 ->
     validate now t start_date end_date = inl EventNotYetOpen) /\
  (status t <> active \/ (exists e, expires_at t = Some e /\ e < now) ->
     validate now t start_date end_date = inl InvalidTicket).
Proof.
  rewrite check_in_spec, <- is_valid_spec.
  split; [|split; [|split; [|split; [|split; [|split]]]]].
  - destruct (is_valid now t); simpl; tauto.
  - destruct (is_valid now t); simpl; [split; reflexivity|discriminate].
  - destruct (is_valid now t); simpl; [discriminate|reflexivity].
  - unfold validate. destruct (is_valid now t) eqn:Hv; simpl.
    + apply is_valid_spec in Hv as (_ & -> & _).
      destruct (Z.ltb_spec end_date now);
        [split; [discriminate|lia]|].
      destruct (Z.ltb_spec now (start_date - timedelta_hours 2));
        [split; [discriminate|lia]|].
      split; [intros _; split; [reflexivity|lia]|reflexivity].
    + split; [discriminate|intros [? _]; discriminate].
  - intros Hv He. unfold validate. rewrite Hv. simpl.
    apply is_valid_spec in Hv as (_ & -> & _).
    destruct (Z.ltb_spec end_date now); [reflexivity|lia].
  - intros Hv He Hs. unfold validate. rewrite Hv. simpl.
    apply is_valid_spec in Hv as (_ & -> & _).
    destruct (Z.ltb_spec end_date now); [lia|].
    destruct (Z.ltb_spec now (start_date - timedelta_hours 2));
      [reflexivity|lia].
  - intros Hbad. unfold validate.
    destruct (is_valid now t) eqn:Hv; [|reflexivity].
    apply is_valid_spec in Hv as (Hs & _ & He).
    destruct Hbad as [Hn | (e & Hexp & Hlt)]; [contradiction|].
    specialize (He e Hexp). lia.
Qed.

Lemma C10_check_in_witness :
  (is_checked_in (fst (check_in (timedelta_hours 9) "Gate A" (Some 9)
                         Demo.ticket)) = true /\
   status (fst (check_in (timedelta_hours 9) "Gate A" (Some 9)
                  Demo.ticket)) = used) /\
  validate (timedelta_hours 15) Demo.ticket Demo.event_start Demo.event_end
  = inl EventEnded /\
  validate 0 Demo.ticket Demo.event_start Demo.event_end
  = inl EventNotYetOpen /\
  validate 0 (with_status cancelled Demo.ticket) Demo.event_start
    Demo.event_end = inl InvalidTicket.
Proof.
  pose proof (C10_check_in (timedelta_hours 9) "Gate A" (Some 9) Demo.ticket
                Demo.event_start Demo.event_end) as (_ & Hok & _).
  pose proof (C10_check_in (timedelta_hours 15) "Gate A" (Some 9) Demo.ticket
                Demo.event_start Demo.event_end)
    as (_ & _ & _ & _ & Hended & _).
  pose proof (C10_check_in 0 "Gate A" (Some 9) Demo.ticket
                Demo.event_start Demo.event_end)
    as (_ & _ & _ & _ & _ & Hclosed & _).
  pose proof (C10_check_in 0 "Gate A" (Some 9)
                (with_status cancelled Demo.ticket)
                Demo.event_start Demo.event_end)
    as (_ & _ & _ & _ & _ & _ & Hbad).
  split; [exact (Hok eq_refl)|].
  split; [apply Hended; [reflexivity|vm_compute; reflexivity]|].
  split; [apply Hclosed; [reflexivity|vm_compute; discriminate
                         |vm_compute; reflexivity]|].
  apply Hbad. left. vm_compute. discriminate.
Defined.

End CheckIn.

(** * Further properties *)

(** ** Inventory ledger: round trips and accounting *)

Section LedgerAccounting.

Import TicketType tickets_models.

Lemma ticket_type_eq (a b : TicketType.t) :
  quantity a = quantity b -> sold_count a = sold_count b ->
  reserved_count a = reserved_count b -> sale_status a = sale_status b ->
  a = b.
Proof. destruct a, b; simpl; intros; subst; reflexivity. Qed.

(** X1. A reservation that succeeded is undone by releasing the same
    quantity: the ticket type is back in the state before the
    reservation. *)
Theorem X1_reserve_release_round_trip (q : Z) (s : TicketType.t) :
  0 <= q -> 0 <= reserved_count s ->
  snd (reserve_tickets q s) = true ->
  release_reservation q (fst (reserve_tickets q s)) = s.
Proof.
  intros Hq Hr. unfold reserve_tickets.
  destruct (q <=? available_count s); simpl; [intros _|discriminate].
  apply ticket_type_eq; simpl; try reflexivity. lia.
Qed.

Lemma X1_reserve_release_round_trip_witness :
  release_reservation 3 (fst (reserve_tickets 3 (TicketType.mk 10 4 2 on_sale)))
  = TicketType.mk 10 4 2 on_sale.
Proof.
  apply (X1_reserve_release_round_trip 3 (TicketType.mk 10 4 2 on_sale));
    [lia | simpl; lia | reflexivity].
Defined.

(** X2. Releasing [q] tickets frees as many as were reserved, at most
    [q]: the reserved count drops by [min q reserved] (so an over-release
    stops at zero), the available count rises by the same number, and the
    sold count, the quantity and the sale status are untouched. *)
Theorem X2_release_frees_reserved (q : Z) (s : TicketType.t) :
  wf s -> conserved s -> 0 <= q ->
  reserved_count (release_reservation q s)
  = reserved_count s - Z.min q (reserved_count s) /\
  available_count (release_reservation q s)
  = available_count s + Z.min q (reserved_count s) /\
  sold_count (release_reservation q s) = sold_count s /\
  quantity (release_reservation q s) = quantity s /\
  sale_status (release_reservation q s) = sale_status s.
Proof.
  intros (Hn & Hs & Hr) Hc Hq.
  unfold conserved, release_reservation, available_count in *; simpl.
  repeat split; lia.
Qed.

Lemma X2_release_frees_reserved_witness :
  reserved_count (release_reservation 5 (TicketType.mk 10 4 2 on_sale)) = 0 /\
  available_count (release_reservation 5 (TicketType.mk 10 4 2 on_sale)) = 6.
Proof.
  pose proof (X2_release_frees_reserved 5 (TicketType.mk 10 4 2 on_sale))
    as H.
  destruct H as (H1 & H2 & _).
  - unfold wf; simpl; lia.
  - unfold conserved; simpl; lia.
  - lia.
  - split; [exact H1 | exact H2].
Defined.

Lemma sell_tickets_success (q : Z) (s : TicketType.t) :
  q <= available_count s + reserved_count s ->
  sold_count (fst (sell_tickets q s)) = sold_count s + q /\
  reserved_count (fst (sell_tickets q s))
  = (if q <=? reserved_count s then reserved_count s - q else 0) /\
  quantity (fst (sell_tickets q s)) = quantity s /\
  snd (sell_tickets q s) = true.
Proof.
  intros Hq. unfold sell_tickets.
  destruct (Z.leb_spec q (available_count s + reserved_count s)); [|lia].
  destruct (q <=? reserved_count s);
    match goal with
    | |- context [if ?c then _ else _] => destruct c
    end; simpl; repeat split; reflexivity.
Qed.

(** X3. [sell_tickets(q)] succeeds exactly when [q] tickets are unsold.
    It then adds [q] to the sold count, consumes the reservation first
    and draws only the excess [max 0 (q - reserved)] from the available
    tickets; the ticket type is marked sold out exactly when nothing is
    left available (or it already was).  On failure nothing changes. *)
Theorem X3_sell_tickets_accounting (q : Z) (s : TicketType.t) :
  wf s -> conserved s -> 0 <= q ->
  (snd (sell_tickets q s) = true <-> q <= quantity s - sold_count s) /\
  (snd (sell_tickets q s) = true ->
     sold_count (fst (sell_tickets q s)) = sold_count s + q /\
     reserved_count (fst (sell_tickets q s))
     = reserved_count s - Z.min q (reserved_count s) /\
     available_count (fst (sell_tickets q s))
     = available_count s - Z.max 0 (q - reserved_count s) /\
     (sale_status (fst (sell_tickets q s)) = sold_out <->
        available_count (fst (sell_tickets q s)) = 0 \/
        sale_status s = sold_out)) /\
  (snd (sell_tickets q s) = false -> fst (sell_tickets q s) = s).
Proof.
  intros (Hn & Hs & Hr) Hc Hq.
  unfold conserved in Hc. unfold sell_tickets.
  assert (Ha : available_count s = quantity s - sold_count s - reserved_count s)
    by (unfold available_count; lia).
  destruct (Z.leb_spec q (available_count s + reserved_count s)) as [Hle|Hgt].
  - split; [split; [intros _; lia | reflexivity]|].
    split; [intros _|discriminate].
    destruct (Z.leb_spec q (reserved_count s)) as [Hqr|Hqr];
      match goal with
      | |- context [if ?c =? 0 then _ else _] =>
          destruct (Z.eqb_spec c 0) as [Hz|Hz]
      end; unfold available_count in *; simpl in *;
      (repeat split; try lia; try (intros _; left; lia);
       try (intros [?|?]; [reflexivity || lia | assumption]); tauto).
  - simpl. split; [split; [discriminate | lia]|].
    split; [discriminate | reflexivity].
Qed.

Lemma X3_sell_tickets_accounting_witness :
  let s := TicketType.mk 10 4 2 on_sale in
  sold_count (fst (sell_tickets 5 s)) = 9 /\
  reserved_count (fst (sell_tickets 5 s)) = 0 /\
  available_count (fst (sell_tickets 5 s)) = 1 /\
  fst (sell_tickets 7 s) = s.
Proof.
  pose proof (X3_sell_tickets_accounting 5 (TicketType.mk 10 4 2 on_sale))
    as H5.
  pose proof (X3_sell_tickets_accounting 7 (TicketType.mk 10 4 2 on_sale))
    as H7.
  assert (Hwf : wf (TicketType.mk 10 4 2 on_sale))
    by (unfold wf; simpl; lia).
  assert (Hc : conserved (TicketType.mk 10 4 2 on_sale))
    by (unfold conserved; simpl; lia).
  destruct (H5 Hwf Hc ltac:(lia)) as (_ & Hok & _).
  destruct (H7 Hwf Hc ltac:(lia)) as (_ & _ & Hfail).
  destruct (Hok eq_refl) as (H1 & H2 & H3 & _).
  intros s0.
  split; [exact H1 | split; [exact H2 | split; [exact H3|]]].
  exact (Hfail eq_refl).
Defined.

(** X4. Selling the quantity that was just reserved always succeeds and
    consumes exactly that reservation: the reserved count is back at its
    value before the reservation, and the sold count has grown and the
    available count has shrunk by [q]. *)
Theorem X4_reserve_then_sell (q : Z) (s : TicketType.t) :
  wf s -> conserved s -> 0 <= q ->
  snd (reserve_tickets q s) = true ->
  snd (sell_tickets q (fst (reserve_tickets q s))) = true /\
  sold_count (fst (sell_tickets q (fst (reserve_tickets q s))))
  = sold_count s + q /\
  reserved_count (fst (sell_tickets q (fst (reserve_tickets q s))))
  = reserved_count s /\
  available_count (fst (sell_tickets q (fst (reserve_tickets q s))))
  = available_count s - q.
Proof.
  intros (Hn & Hs & Hr) Hc Hq. unfold conserved in Hc.
  unfold reserve_tickets.
  destruct (Z.leb_spec q (available_count s)) as [Hle|]; simpl;
    [intros _|discriminate].
  set (s1 := with_reserved_count (reserved_count s + q) s).
  assert (Hs1 : q <= available_count s1 + reserved_count s1)
    by (unfold available_count in *; simpl; lia).
  destruct (sell_tickets_success q s1 Hs1) as (Hsold & Hres & Hqty & Hok).
  assert (Hq1 : (q <=? reserved_count s1) = true)
    by (apply Z.leb_le; simpl; lia).
  rewrite Hq1 in Hres.
  repeat split; try assumption.
  - rewrite Hres. simpl. lia.
  - unfold available_count in *. rewrite Hsold, Hres, Hqty. simpl. lia.
Qed.

Lemma X4_reserve_then_sell_witness :
  let s := TicketType.mk 10 4 2 on_sale in
  sold_count (fst (sell_tickets 3 (fst (reserve_tickets 3 s)))) = 7 /\
  reserved_count (fst (sell_tickets 3 (fst (reserve_tickets 3 s)))) = 2.
Proof.
  destruct (X4_reserve_then_sell 3 (TicketType.mk 10 4 2 on_sale))
    as (_ & H1 & H2 & _).
  - unfold wf; simpl; lia.
  - unfold conserved; simpl; lia.
  - lia.
  - reflexivity.
  - split; [exact H1 | exact H2].
Defined.

Lemma step_quantity_sold (op : InventoryLedger.Op) (s : TicketType.t) :
  0 <= InventoryLedger.amount_of op ->
  quantity (InventoryLedger.step op s) = quantity s /\
  sold_count s <= sold_count (InventoryLedger.step op s).
Proof.
  intros Hq. destruct op as [q|q|q]; simpl in *.
  - unfold reserve_tickets. destruct (q <=? available_count s); simpl; lia.
  - unfold release_reservation; simpl. lia.
  - unfold sell_tickets.
    destruct (q <=? available_count s + reserved_count s); [|simpl; lia].
    destruct (q <=? reserved_count s);
      match goal with
      | |- context [if ?c then _ else _] => destruct c
      end; simpl; lia.
Qed.

(** X5. Over every sequence of reservations, releases and sales of
    non-negative quantities, the quantity of the ticket type never
    changes, the sold count never decreases and never exceeds the
    quantity, and the counters stay non-negative. *)
Theorem X5_ledger_never_oversells (ops : list InventoryLedger.Op)
    (s : TicketType.t) :
  Forall (fun op => 0 <= InventoryLedger.amount_of op) ops ->
  wf s -> conserved s ->
  quantity (InventoryLedger.run ops s) = quantity s /\
  sold_count s <= sold_count (InventoryLedger.run ops s) <= quantity s /\
  0 <= reserved_count (InventoryLedger.run ops s).
Proof.
  intros Hops Hwf Hc.
  destruct (run_conserved ops s Hops Hwf Hc) as [(Hn & Hs & Hr) Hc'].
  assert (Hqs : quantity (InventoryLedger.run ops s) = quantity s /\
                sold_count s <= sold_count (InventoryLedger.run ops s)).
  { clear Hwf Hc Hn Hs Hr Hc'. unfold InventoryLedger.run. revert s.
    induction Hops as [|op ops Hop _ IH]; intros s; simpl; [lia|].
    destruct (step_quantity_sold op s Hop) as [H1 H2].
    destruct (IH (InventoryLedger.step op s)) as [H3 H4]. lia. }
  unfold conserved in Hc'. lia.
Qed.

Lemma X5_ledger_never_oversells_witness :
  let ops := [InventoryLedger.Reserve 3; InventoryLedger.Sell 5;
              InventoryLedger.Release 4; InventoryLedger.Sell 9] in
  let s := TicketType.mk 10 4 2 on_sale in
  quantity (InventoryLedger.run ops s) = 10 /\
  4 <= sold_count (InventoryLedger.run ops s) <= 10 /\
  0 <= reserved_count (InventoryLedger.run ops s).
Proof.
  apply (X5_ledger_never_oversells
           [InventoryLedger.Reserve 3; InventoryLedger.Sell 5;
            InventoryLedger.Release 4; InventoryLedger.Sell 9]
           (TicketType.mk 10 4 2 on_sale)).
  - repeat constructor; simpl; lia.
  - unfold wf; simpl; lia.
  - unfold conserved; simpl; lia.
Defined.

End LedgerAccounting.

(** ** Sale window and sale status *)

Section SaleStatus.

Import TicketTypeRow TicketSale.

Lemma is_available_spec (now : DateTime) (row : TicketTypeRow.t) :
  is_available now row = true <->
  is_active row = true /\
  TicketType.sale_status (counters row) = TicketType.on_sale /\
  sale_starts row <= now <= sale_ends row /\
  0 < tickets_models.available_count (counters row).
Proof.
  unfold is_available.
  rewrite !andb_true_iff, bool_decide_eq_true, !Z.leb_le, Z.ltb_lt. tauto.
Qed.

(** X6. A quantity that [can_purchase] accepts can be reserved: it lies
    within the purchase limits of the ticket type, inside its sale
    window, and [reserve_tickets] on the same counters succeeds. *)
Theorem X6_can_purchase_then_reserve (now : DateTime) (q : Z)
    (row : TicketTypeRow.t) :
  can_purchase now q row = true ->
  snd (tickets_models.reserve_tickets q (counters row)) = true /\
  min_purchase row <= q <= max_purchase row /\
  sale_starts row <= now <= sale_ends row /\
  is_active row = true.
Proof.
  unfold can_purchase. rewrite !andb_true_iff, !Z.leb_le.
  intros [[[Ha Hmin] Hmax] Hq].
  apply is_available_spec in Ha as (Hact & _ & Hw & _).
  unfold tickets_models.reserve_tickets.
  destruct (Z.leb_spec q (tickets_models.available_count (counters row)));
    [|lia].
  repeat split; try assumption; lia.
Qed.

Lemma X6_can_purchase_then_reserve_witness :
  let row :=
    TicketTypeRow.mk (TicketType.mk 10 4 2 TicketType.on_sale) 50000%Q
      2500%Q 18%Q 1 10 100 200 None None true true None true in
  snd (tickets_models.reserve_tickets 4 (counters row)) = true.
Proof.
  apply (X6_can_purchase_then_reserve 150 4
           (TicketTypeRow.mk (TicketType.mk 10 4 2 TicketType.on_sale)
              50000%Q 2500%Q 18%Q 1 10 100 200 None None true true None
              true)).
  reflexivity.
Defined.

Lemma update_sale_status_cases (now : DateTime) (row : TicketTypeRow.t) :
  TicketType.sale_status (counters (update_sale_status now row))
  = TicketType.on_sale <->
  is_active row = true /\
  tickets_models.available_count (counters row) <> 0 /\
  sale_starts row <= now <= sale_ends row.
Proof.
  unfold update_sale_status; simpl.
  destruct (is_active row); simpl; [|split; [discriminate|intros [? _]; discriminate]].
  destruct (Z.eqb_spec (tickets_models.available_count (counters row)) 0);
    [split; [discriminate|tauto]|].
  destruct (Z.ltb_spec now (sale_starts row));
    [split; [discriminate|lia]|].
  destruct (Z.ltb_spec (sale_ends row) now);
    [split; [discriminate|lia]|].
  split; [intros _; repeat split; (reflexivity || assumption || lia)
         |reflexivity].
Qed.

Lemma is_available_after_update (now : DateTime) (row : TicketTypeRow.t) :
  is_available now (update_sale_status now row) = true <->
  is_active row = true /\
  tickets_models.available_count (counters row) <> 0 /\
  sale_starts row <= now <= sale_ends row.
Proof.
  rewrite is_available_spec, update_sale_status_cases.
  change (is_active (update_sale_status now row)) with (is_active row).
  change (sale_starts (update_sale_status now row)) with (sale_starts row).
  change (sale_ends (update_sale_status now row)) with (sale_ends row).
  change (tickets_models.available_count
            (counters (update_sale_status now row)))
    with (tickets_models.available_count (counters row)).
  pose proof (Z.le_max_l 0 (TicketType.quantity (counters row)
                            - TicketType.sold_count (counters row)
                            - TicketType.reserved_count (counters row))).
  unfold tickets_models.available_count in *. split; intros; intuition lia.
Qed.

(** X7. After [update_sale_status] the stored status agrees with
    [is_available]: the ticket type is available exactly when its status
    is [on_sale].  The refresh never yields [paused] (a paused sale is
    resumed or closed by it), leaves the counters alone, and running it
    again at the same time changes nothing. *)
Theorem X7_update_sale_status (now : DateTime) (row : TicketTypeRow.t) :
  (is_available now (update_sale_status now row) = true <->
     TicketType.sale_status (counters (update_sale_status now row))
     = TicketType.on_sale) /\
  TicketType.sale_status (counters (update_sale_status now row))
  <> TicketType.paused /\
  tickets_models.available_count (counters (update_sale_status now row))
  = tickets_models.available_count (counters row) /\
  update_sale_status now (update_sale_status now row)
  = update_sale_status now row.
Proof.
  split; [|split; [|split]].
  - rewrite is_available_after_update, update_sale_status_cases. tauto.
  - unfold update_sale_status; simpl.
    destruct (is_active row); simpl; [|discriminate].
    destruct (tickets_models.available_count (counters row) =? 0);
      [discriminate|].
    destruct (now <? sale_starts row); [discriminate|].
    destruct (sale_ends row <? now); discriminate.
  - reflexivity.
  - unfold update_sale_status; simpl.
    change (tickets_models.available_count
              (TicketType.with_sale_status _ (counters row)))
      with (tickets_models.available_count (counters row)).
    reflexivity.
Qed.

(** X8. A sale that exhausts the available tickets marks the ticket type
    sold out, and a later release does not clear the mark: however many
    tickets the release frees, no quantity can be purchased until
    [update_sale_status] runs, which puts an active ticket type inside
    its sale window back on sale. *)
Theorem X8_sold_out_outlives_release (now : DateTime) (q r n : Z)
    (row : TicketTypeRow.t) :
  snd (tickets_models.sell_tickets q (counters row)) = true ->
  tickets_models.available_count
    (fst (tickets_models.sell_tickets q (counters row))) = 0 ->
  let freed := release_reservation r (fst (sell_tickets q row)) in
  can_purchase now n freed = false /\
  (is_active row = true -> sale_starts row <= now <= sale_ends row ->
   0 < tickets_models.available_count (counters freed) ->
   is_available now (update_sale_status now freed) = true).
Proof.
  intros Hok Hzero freed.
  assert (Hst : TicketType.sale_status (counters freed) = TicketType.sold_out).
  { subst freed. unfold release_reservation, sell_tickets.
    destruct (tickets_models.sell_tickets q (counters row)) as [c ok] eqn:E.
    simpl in *. subst ok.
    unfold tickets_models.sell_tickets in E.
    destruct (q <=? tickets_models.available_count (counters row)
                    + TicketType.reserved_count (counters row));
      [|discriminate].
    match type of E with
    | ((if ?c0 =? 0 then _ else _), _) = _ =>
        destruct (Z.eqb_spec c0 0) as [Hz|Hz]
    end.
    - injection E as <-. reflexivity.
    - injection E as <-. contradiction. }
  split.
  - unfold can_purchase, is_available. rewrite Hst.
    rewrite bool_decide_eq_false_2 by discriminate.
    rewrite andb_false_r. reflexivity.
  - intros Hact Hw Hav.
    apply is_available_after_update.
    assert (Hsame : is_active freed = is_active row /\
                    sale_starts freed = sale_starts row /\
                    sale_ends freed = sale_ends row).
    { subst freed. unfold release_reservation, sell_tickets.
      destruct (tickets_models.sell_tickets q (counters row)).
      repeat split; reflexivity. }
    destruct Hsame as (-> & -> & ->).
    repeat split; try assumption; lia.
Qed.

Lemma X8_sold_out_outlives_release_witness :
  let row :=
    TicketTypeRow.mk (TicketType.mk 10 4 6 TicketType.on_sale) 50000%Q
      2500%Q 18%Q 1 10 100 200 None None true true None true in
  let freed := release_reservation 2 (fst (sell_tickets 2 row)) in
  tickets_models.available_count (counters freed) = 2 /\
  can_purchase 150 1 freed = false /\
  is_available 150 (update_sale_status 150 freed) = true.
Proof.
  pose proof (X8_sold_out_outlives_release 150 2 2 1
                (TicketTypeRow.mk (TicketType.mk 10 4 6 TicketType.on_sale)
                   50000%Q 2500%Q 18%Q 1 10 100 200 None None true true
                   None true) eq_refl eq_refl) as [H1 H2].
  intros row freed.
  split; [reflexivity|]. split; [exact H1|].
  apply H2; [reflexivity | simpl; lia | vm_compute; reflexivity].
Defined.

End SaleStatus.

(** ** Bookings: expiry, release on expiry, cancellation *)

Section BookingExpiry.

Import Booking bookings_models.

(** X9. A pending booking saved for the first time at time [t] expires
    fifteen minutes later: [is_expired] is true exactly after
    [t + 15 min].  Later saves keep that instant, and so does
    [mark_as_paid]: a booking paid in time still reports [is_expired]
    once the fifteen minutes have passed. *)
Theorem X9_pending_booking_expiry (t now later : DateTime) (b : Booking.t) :
  status b = pending -> booking_expires_at b = None ->
  booking_expires_at (save t b) = Some (t + timedelta_minutes 15) /\
  (BookingChecks.is_expired now (save t b) = true <->
     t + timedelta_minutes 15 < now) /\
  save later (save t b) = save t b /\
  BookingChecks.is_expired now (fst (mark_as_paid later (save t b)))
  = BookingChecks.is_expired now (save t b).
Proof.
  intros Hs He.
  assert (Hsave : save t b
                  = with_booking_expires_at (Some (t + timedelta_minutes 15)) b).
  { unfold save. rewrite He, Hs. reflexivity. }
  rewrite Hsave. split; [reflexivity|]. split; [|split].
  - unfold BookingChecks.is_expired; simpl. apply Z.ltb_lt.
  - reflexivity.
  - unfold mark_as_paid.
    destruct (bool_decide _ || bool_decide _); reflexivity.
Qed.

Lemma X9_pending_booking_expiry_witness :
  let b := with_booking_expires_at None Demo.booking in
  booking_expires_at (save 0 b) = Some 900000000 /\
  BookingChecks.is_expired 900000001 (fst (mark_as_paid 5 (save 0 b))) = true.
Proof.
  destruct (X9_pending_booking_expiry 0 900000001 5
              (with_booking_expires_at None Demo.booking)
              eq_refl eq_refl) as (H1 & H2 & _ & H4).
  intros b. subst b. split; [exact H1|].
  rewrite H4. apply H2. reflexivity.
Defined.

Lemma release_tickets_lookup (item : BookingItem.t)
    (rows : gmap Z TicketType.t) (k : Z) :
  release_tickets item rows !! k
  = if decide (k = BookingItem.ticket_type item)
    then tickets_models.release_reservation (BookingItem.quantity item)
           <$> rows !! k
    else rows !! k.
Proof.
  unfold release_tickets.
  destruct (rows !! BookingItem.ticket_type item) as [row|] eqn:Hrow.
  - destruct (decide (k = BookingItem.ticket_type item)) as [->|Hne].
    + rewrite lookup_insert_eq, Hrow. reflexivity.
    + rewrite lookup_insert_ne by congruence. reflexivity.
  - destruct (decide (k = BookingItem.ticket_type item)) as [->|Hne];
      [rewrite Hrow|]; reflexivity.
Qed.

Lemma release_all_lookup (items : list BookingItem.t)
    (rows : gmap Z TicketType.t) :
  NoDup (BookingItem.ticket_type <$> items) ->
  (forall k, k ∉ BookingItem.ticket_type <$> items ->
     foldl (fun rows item => release_tickets item rows) rows items !! k
     = rows !! k) /\
  (forall item, item ∈ items ->
     foldl (fun rows item => release_tickets item rows) rows items
       !! BookingItem.ticket_type item
     = tickets_models.release_reservation (BookingItem.quantity item)
         <$> rows !! BookingItem.ticket_type item).
Proof.
  revert rows. induction items as [|i items IH]; intros rows Hnd; simpl.
  - split; [reflexivity|]. intros item Hin. inversion Hin.
  - rewrite fmap_cons in Hnd. apply NoDup_cons in Hnd as [Hi Hnd].
    destruct (IH (release_tickets i rows) Hnd) as [IHother IHitem].
    split.
    + intros k Hk. rewrite not_elem_of_cons in Hk. destruct Hk as [Hki Hk].
      rewrite IHother by exact Hk.
      rewrite release_tickets_lookup. destruct (decide _); [contradiction|].
      reflexivity.
    + intros item Hin. apply elem_of_cons in Hin as [->|Hin].
      * rewrite IHother by exact Hi.
        rewrite release_tickets_lookup. destruct (decide _); [|contradiction].
        reflexivity.
      * rewrite IHitem by exact Hin.
        rewrite release_tickets_lookup.
        destruct (decide _) as [Heq|]; [|reflexivity].
        exfalso. apply Hi. rewrite <- Heq.
        apply list_elem_of_fmap. exists item. split; [reflexivity|exact Hin].
Qed.

(** X10. [expire_booking] on a pending, unpaid booking succeeds, sets the
    status to [expired] and releases the reservation of every item: the
    row of each item's ticket type is the old row after
    [release_reservation(item.quantity)], and every other ticket type is
    untouched, as are the items and the tickets.  A second
    [expire_booking] fails and releases nothing more. *)
Theorem X10_expire_booking_releases (now later : DateTime) (b : Booking.t)
    (db : Db) :
  status b = pending -> payment_status b = pay_pending ->
  NoDup (BookingItem.ticket_type <$> items_of (id b) db) ->
  let r := expire_booking now b db in
  snd r = true /\
  status (fst (fst r)) = expired /\
  (forall item, item ∈ items_of (id b) db ->
     ticket_types (snd (fst r)) !! BookingItem.ticket_type item
     = tickets_models.release_reservation (BookingItem.quantity item)
         <$> ticket_types db !! BookingItem.ticket_type item) /\
  (forall k, k ∉ BookingItem.ticket_type <$> items_of (id b) db ->
     ticket_types (snd (fst r)) !! k = ticket_types db !! k) /\
  booking_items (snd (fst r)) = booking_items db /\
  tickets (snd (fst r)) = tickets db /\
  expire_booking later (fst (fst r)) (snd (fst r))
  = (fst (fst r), snd (fst r), false).
Proof.
  intros Hs Hp Hnd. unfold expire_booking. rewrite Hs, Hp. simpl.
  destruct (release_all_lookup (items_of (id b) db) (ticket_types db) Hnd)
    as [Hother Hitem].
  assert (Hst : status (save now (with_status expired b)) = expired).
  { unfold save; simpl. destruct (booking_expires_at b); reflexivity. }
  repeat split; try assumption.
  rewrite Hst. reflexivity.
Qed.

Lemma X10_expire_booking_releases_witness :
  TicketType.reserved_count
    <$> ticket_types (snd (fst (expire_booking 30 Demo.booking Demo.db))) !! 7
  = Some 0.
Proof.
  destruct (X10_expire_booking_releases 30 40 Demo.booking Demo.db
              eq_refl eq_refl) as (_ & _ & Hitem & _).
  - vm_compute. repeat constructor. intros H. inversion H.
  - assert (Hin : Demo.item ∈ items_of (id Demo.booking) Demo.db)
      by (vm_compute; left).
    pose proof (Hitem Demo.item Hin) as H.
    change (BookingItem.ticket_type Demo.item) with 7 in H.
    rewrite H. reflexivity.
Defined.

Lemma cancel_tickets_of_filter (k bid : Z) (rows : list Ticket.t) :
  filter (fun x => Ticket.booking x = k) (cancel_tickets_of bid rows)
  = (fun x : Ticket.t =>
       if bool_decide (Ticket.booking x = bid)
       then Ticket.with_status Ticket.cancelled x else x)
    <$> filter (fun x => Ticket.booking x = k) rows.
Proof.
  unfold cancel_tickets_of.
  induction rows as [|x rows IH]; [reflexivity|].
  rewrite fmap_cons, !filter_cons, IH.
  assert (Hb : Ticket.booking
                 (if bool_decide (Ticket.booking x = bid)
                  then Ticket.with_status Ticket.cancelled x else x)
               = Ticket.booking x)
    by (case_bool_decide; reflexivity).
  rewrite Hb. destruct (decide (Ticket.booking x = k)); reflexivity.
Qed.

(** X11. A successful [cancel_booking] sets the status of every ticket of
    the booking to [cancelled], whatever it was, and leaves the tickets
    of every other booking as they were; afterwards no ticket of the
    booking can be checked in, at any time. *)
Theorem X11_cancel_booking_voids_tickets (now : DateTime) (reason : string)
    (by_user : option UserId) (b : Booking.t) (db : Db) :
  status b = pending \/ status b = confirmed \/ status b = paid ->
  let r := cancel_booking now reason by_user b db in
  snd r = true /\
  tickets_of (id b) (snd (fst r))
  = Ticket.with_status Ticket.cancelled <$> tickets_of (id b) db /\
  (forall k, k <> id b -> tickets_of k (snd (fst r)) = tickets_of k db) /\
  (forall x at_time location user,
     x ∈ tickets_of (id b) (snd (fst r)) ->
     tickets_models.check_in at_time location user x = (x, false)).
Proof.
  intros Hs.
  assert (Hguard : bool_decide (status b = pending)
                   || bool_decide (status b = confirmed)
                   || bool_decide (status b = paid) = true).
  { destruct Hs as [-> | [-> | ->]]; reflexivity. }
  unfold cancel_booking. rewrite Hguard. simpl.
  assert (Hmine : tickets_of (id b)
                    (with_tickets (cancel_tickets_of (id b) (tickets db)) db)
                  = Ticket.with_status Ticket.cancelled
                      <$> tickets_of (id b) db).
  { unfold tickets_of; simpl. rewrite cancel_tickets_of_filter.
    apply Forall_fmap_ext_1, Forall_forall. intros x Hx.
    apply list_elem_of_filter in Hx as [Hx _].
    rewrite bool_decide_eq_true_2 by exact Hx. reflexivity. }
  split; [reflexivity|]. split; [exact Hmine|]. split.
  - intros k Hk. unfold tickets_of; simpl. rewrite cancel_tickets_of_filter.
    rewrite <- (list_fmap_id (filter _ (tickets db))) at 2.
    apply Forall_fmap_ext_1, Forall_forall. intros x Hx.
    apply list_elem_of_filter in Hx as [Hx _].
    rewrite bool_decide_eq_false_2 by congruence. reflexivity.
  - intros x at_time location user Hx. rewrite Hmine in Hx.
    apply list_elem_of_fmap in Hx as (y & -> & _).
    reflexivity.
Qed.

Lemma X11_cancel_booking_voids_tickets_witness :
  let db := with_tickets [Demo.ticket] Demo.db in
  tickets_of 1
    (snd (fst (cancel_booking 30 "Cancelled by customer" (Some 42)
                 Demo.booking db)))
  = [Ticket.with_status Ticket.cancelled Demo.ticket] /\
  tickets_models.check_in (timedelta_hours 10) "Gate A" (Some 9)
    (Ticket.with_status Ticket.cancelled Demo.ticket)
  = (Ticket.with_status Ticket.cancelled Demo.ticket, false).
Proof.
  destruct (X11_cancel_booking_voids_tickets 30 "Cancelled by customer"
              (Some 42) Demo.booking (with_tickets [Demo.ticket] Demo.db))
    as (_ & Hmine & _ & Hcheck).
  - left. reflexivity.
  - intros db. subst db. split; [exact Hmine|].
    apply Hcheck. rewrite Hmine. vm_compute. left.
Defined.

End BookingExpiry.

(** ** Booking totals *)

Section Totals.

Import BookingTotals.

(** X12. [calculate_totals] never lets a discount reach the fees and the
    tax: the total is at least [service_fee_total + tax_total].  It is
    [subtotal - discount + fees + tax] while the discount is at most the
    subtotal, and exactly the fees and the tax when the discount is the
    subtotal or more. *)
Theorem X12_calculate_totals_floor (items : list ItemTotals) (self : t) :
  (service_fee_total (calculate_totals items self)
   + tax_total (calculate_totals items self)
   <= total_amount (calculate_totals items self))%Q /\
  ((discount_amount self <= subtotal (calculate_totals items self))%Q ->
   (total_amount (calculate_totals items self)
    == subtotal (calculate_totals items self) - discount_amount self
       + service_fee_total (calculate_totals items self)
       + tax_total (calculate_totals items self))%Q) /\
  ((subtotal (calculate_totals items self) <= discount_amount self)%Q ->
   (total_amount (calculate_totals items self)
    == service_fee_total (calculate_totals items self)
       + tax_total (calculate_totals items self))%Q) /\
  discount_amount (calculate_totals items self) = discount_amount self.
Proof.
  unfold calculate_totals; simpl.
  set (sub := sum_of total_price items).
  set (fees := sum_of item_service_fee_total items).
  set (tax := sum_of item_tax_total items).
  destruct (Qlt_le_dec 0 (sub - discount_amount self)) as [Hpos|Hneg];
    unfold Decimal in *; repeat split; intros; try lra.
Qed.

Lemma X12_calculate_totals_floor_witness :
  let items := [mkItemTotals 100000%Q 5000%Q 0%Q] in
  (total_amount (calculate_totals items (mk 0%Q 0%Q 0%Q 5000%Q 0%Q)) == 100000)%Q /\
  (total_amount (calculate_totals items (mk 0%Q 0%Q 0%Q 250000%Q 0%Q)) == 5000)%Q.
Proof.
  pose proof (X12_calculate_totals_floor [mkItemTotals 100000%Q 5000%Q 0%Q]
                (mk 0%Q 0%Q 0%Q 5000%Q 0%Q)) as (_ & H1 & _).
  pose proof (X12_calculate_totals_floor [mkItemTotals 100000%Q 5000%Q 0%Q]
                (mk 0%Q 0%Q 0%Q 250000%Q 0%Q)) as (_ & _ & H2 & _).
  intros items. subst items. split.
  - rewrite H1; [reflexivity | vm_compute; discriminate].
  - rewrite H2; [reflexivity | vm_compute; discriminate].
Defined.

End Totals.

(** ** Tickets: refund and transfer eligibility *)

Section TicketEligibility.

Import Ticket tickets_models TicketTransfers.





(** X14. A ticket is checked in at most once, and a check-in is final:
    after a successful [check_in] a second one fails at any time, and the
    ticket is neither transferable nor refundable whatever its ticket
    type allows, so [transfer_to] fails and changes nothing. *)
Theorem X14_check_in_is_final (now later : DateTime)
    (location location' : string) (user user' : option UserId)
    (new_holder : UserId) (fee : Decimal) (row : TicketTypeRow.t)
    (start_date : DateTime) (x : Ticket.t) (cols : Columns)
    (log : list TicketTransfer) :
  snd (check_in now location user x) = true ->
  let x1 := fst (check_in now location user x) in
  check_in later location' user' x1 = (x1, false) /\
  is_transferable later row start_date x1 = false /\
  is_refundable later row start_date x1 = false /\
  transfer_to later new_holder fee row start_date x1 cols log
  = (x1, cols, log, false).
Proof.
  unfold check_in.
  destruct (is_valid now x && negb (is_checked_in x)); simpl;
    [intros _|discriminate].
  unfold transfer_to, is_transferable, is_refundable; simpl.
  rewrite orb_true_r. repeat split; reflexivity.
Qed.

Lemma X14_check_in_is_final_witness :
  let x1 := fst (check_in (timedelta_hours 9) "Gate A" (Some 9) Demo.ticket) in
  check_in (timedelta_hours 10) "Gate B" (Some 9) x1 = (x1, false).
Proof.
  intros x1.
  apply (X14_check_in_is_final (timedelta_hours 9) (timedelta_hours 10)
           "Gate A" "Gate B" (Some 9) (Some 9) 43 0%Q
           (TicketTypeRow.mk (TicketType.mk 10 4 2 TicketType.on_sale)
              50000%Q 2500%Q 18%Q 1 10 100 200 None None true true None
              true)
           (timedelta_hours 10) Demo.ticket (mkColumns 0 None 0%Q) []).
  reflexivity.
Defined.

(** X15. [transfer_to] succeeds exactly when the ticket is active and not
    checked in, its ticket type allows transfers and the event has not
    started.  It then hands the ticket to the new holder, keeps the
    original buyer and the status [active], counts the transfer, adds the
    fee to the fees paid and records one row from the previous holder to
    the new one; on failure nothing changes. *)
Theorem X15_transfer_to (now : DateTime) (new_holder : UserId)
    (fee : Decimal) (row : TicketTypeRow.t) (start_date : DateTime)
    (x : Ticket.t) (cols : Columns) (log : list TicketTransfer) :
  let r := transfer_to now new_holder fee row start_date x cols log in
  (snd r = true <->
     status x = active /\ is_checked_in x = false /\
     TicketTypeRow.is_transferable row = true /\ now < start_date) /\
  (snd r = true ->
     current_holder (fst (fst (fst r))) = new_holder /\
     original_buyer (fst (fst (fst r))) = original_buyer x /\
     status (fst (fst (fst r))) = active /\
     (forall at_time,
        is_valid at_time (fst (fst (fst r))) = is_valid at_time x) /\
     transfer_count (snd (fst (fst r))) = transfer_count cols + 1 /\
     transfer_fee_paid (snd (fst (fst r))) = (transfer_fee_paid cols + fee)%Q /\
     snd (fst r) = log ++ [mkTransfer (current_holder x) new_holder fee]) /\
  (snd r = false -> r = (x, cols, log, false)).
Proof.
  unfold transfer_to.
  destruct (is_transferable now row start_date x) eqn:Ht; simpl.
  - unfold is_transferable in Ht.
    rewrite !andb_true_iff, bool_decide_eq_true, negb_true_iff, Z.ltb_lt in Ht.
    destruct Ht as [[[Hs Hr] Hc] Hn].
    repeat split; try assumption; try reflexivity; discriminate.
  - split; [|split; [discriminate|reflexivity]].
    split; [discriminate|].
    intros (Hs & Hc & Hr & Hn). unfold is_transferable in Ht.
    rewrite Hs, Hc, Hr in Ht. simpl in Ht.
    apply Z.ltb_ge in Ht. lia.
Qed.

Lemma X15_transfer_to_witness :
  let row :=
    TicketTypeRow.mk (TicketType.mk 10 4 2 TicketType.on_sale) 50000%Q
      2500%Q 18%Q 1 10 100 200 None None true true None true in
  let r := transfer_to 0 43 1000%Q row Demo.event_start Demo.ticket
             (mkColumns 0 None 0%Q) [] in
  current_holder (fst (fst (fst r))) = 43 /\
  snd (fst r) = [mkTransfer 42 43 1000%Q].
Proof.
  intros row r.
  destruct (X15_transfer_to 0 43 1000%Q row Demo.event_start Demo.ticket
              (mkColumns 0 None 0%Q) []) as (_ & Hok & _).
  destruct (Hok eq_refl) as (H1 & _ & _ & _ & _ & _ & H7).
  split; [exact H1 | exact H7].
Defined.

End TicketEligibility.

(** ** Payments: retries, final states, expiry and settlement *)

Section PaymentSequences.

Import Payment payments_models PaymentWorkflow.

Ltac save_payment_field :=
  unfold save_payment;
  match goal with
  | |- context [opt_decimal_truthy ?n] => destruct (opt_decimal_truthy n)
  end; simpl;
  match goal with
  | |- context [expires_at ?p] => destruct (expires_at p)
  end; simpl; try reflexivity; case_bool_decide; reflexivity.

Lemma save_payment_max_retries (now : DateTime) (p : Payment.t) :
  max_retries (save_payment now p) = max_retries p.
Proof. save_payment_field. Qed.

Lemma mark_completed_counts (now : DateTime) (g : option string)
    (r : option JsonDict) (p : Payment.t) (b : Booking.t) :
  retry_count (fst (fst (mark_completed now g r p b))) = retry_count p /\
  max_retries (fst (fst (mark_completed now g r p b))) = max_retries p.
Proof.
  unfold mark_completed. destruct (is_pending p); simpl;
    [|split; reflexivity].
  rewrite save_payment_retry_count, save_payment_max_retries.
  destruct r as [resp|]; [destruct (dict_truthy resp)|];
    (destruct g as [txn|]; [destruct (str_truthy txn)|]);
    split; reflexivity.
Qed.

Lemma mark_failed_counts (now : DateTime) (reason code : string)
    (p : Payment.t) :
  retry_count (fst (mark_failed now reason code p)) = retry_count p /\
  max_retries (fst (mark_failed now reason code p)) = max_retries p.
Proof.
  unfold mark_failed. destruct (is_pending p); simpl;
    [|split; reflexivity].
  rewrite save_payment_retry_count, save_payment_max_retries.
  split; reflexivity.
Qed.

Lemma retry_payment_counts (now : DateTime) (p : Payment.t) (b : Booking.t) :
  retry_count (fst (retry_payment now p b))
  = retry_count p + (if snd (retry_payment now p b) then 1 else 0) /\
  max_retries (fst (retry_payment now p b)) = max_retries p /\
  (snd (retry_payment now p b) = true -> retry_count p < max_retries p).
Proof.
  unfold retry_payment. destruct (can_retry p b) eqn:Hc; simpl.
  - rewrite save_payment_retry_count, save_payment_max_retries. simpl.
    repeat split. intros _. unfold can_retry in Hc.
    rewrite !andb_true_iff, Z.ltb_lt in Hc. tauto.
  - repeat split; [lia | discriminate].
Qed.

Lemma step_counts (now : DateTime) (op : Op) (s : State) :
  retry_count (payment s) <= max_retries (payment s) ->
  max_retries (payment (step now op s)) = max_retries (payment s) /\
  retry_count (payment (step now op s))
  = retry_count (payment s) + successful_retries [(now, op)] s /\
  retry_count (payment (step now op s)) <= max_retries (payment s).
Proof.
  intros Hle. destruct op as [g r|reason code|]; simpl.
  - pose proof (mark_completed_counts now g r (payment s) (booking s))
      as [H1 H2].
    destruct (mark_completed now g r (payment s) (booking s)) as [[p b] ok].
    simpl in *. lia.
  - pose proof (mark_failed_counts now reason code (payment s)) as [H1 H2].
    lia.
  - pose proof (retry_payment_counts now (payment s) (booking s))
      as (H1 & H2 & H3).
    destruct (snd (retry_payment now (payment s) (booking s)));
      [specialize (H3 eq_refl)|]; lia.
Qed.

(** X16. Over every sequence of [mark_completed], [mark_failed] and
    [retry_payment] operations on a payment whose [retry_count] starts
    within [max_retries], the limit never changes, [retry_count] grows by
    one with each successful retry and by nothing else, and it never
    exceeds [max_retries]: at most [max_retries - retry_count] retries
    succeed. *)
Theorem X16_retries_are_bounded (ops : list (DateTime * Op)) (s : State) :
  retry_count (payment s) <= max_retries (payment s) ->
  max_retries (payment (run ops s)) = max_retries (payment s) /\
  retry_count (payment (run ops s))
  = retry_count (payment s) + successful_retries ops s /\
  retry_count (payment (run ops s)) <= max_retries (payment s) /\
  0 <= successful_retries ops s
    <= max_retries (payment s) - retry_count (payment s).
Proof.
  unfold run. revert s.
  induction ops as [|[now op] ops IH]; intros s Hle.
  - simpl. lia.
  - destruct (step_counts now op s Hle) as (Hm & Hr & Hb).
    assert (Hle' : retry_count (payment (step now op s))
                   <= max_retries (payment (step now op s))) by lia.
    destruct (IH (step now op s) Hle') as (IHm & IHr & IHb & IHs).
    change (foldl (fun s '(now, op) => step now op s) s ((now, op) :: ops))
      with (foldl (fun s '(now, op) => step now op s) (step now op s) ops).
    assert (Hs : successful_retries ((now, op) :: ops) s
                 = successful_retries [(now, op)] s
                   + successful_retries ops (step now op s)).
    { simpl. lia. }
    assert (H1 : 0 <= successful_retries [(now, op)] s).
    { simpl. destruct op; try lia.
      destruct (snd (retry_payment now (payment s) (booking s))); lia. }
    lia.
Qed.

Lemma X16_retries_are_bounded_witness :
  let s := PaymentWorkflow.mk
             (with_retry 2 0 (with_status failed Demo.payment))
             Demo.booking in
  let ops := [(10, Retry); (20, MarkFailed "declined" "51"); (30, Retry);
              (40, MarkFailed "declined" "51"); (50, Retry)] in
  retry_count (payment (run ops s)) = 3 /\
  successful_retries ops s = 1.
Proof.
  intros s ops.
  destruct (X16_retries_are_bounded ops s) as (_ & H1 & _ & _).
  - subst s. simpl. lia.
  - split; [|reflexivity]. rewrite H1. reflexivity.
Defined.

(** X17. A payment that is completed, refunded, partially refunded or
    disputed is final for [mark_completed], [mark_failed] and
    [retry_payment]: no sequence of them changes the payment or its
    booking. *)
Theorem X17_completed_payment_is_final (ops : list (DateTime * Op))
    (s : State) :
  final_status (status (payment s)) -> run ops s = s.
Proof.
  intros Hst. unfold run.
  induction ops as [|[now op] ops IH]; [reflexivity|].
  simpl.
  assert (Hstep : step now op s = s).
  { destruct s as [p b]. simpl in *.
    assert (Hp : is_pending p = false)
      by (unfold is_pending;
          destruct Hst as [-> | [-> | [-> | ->]]]; reflexivity).
    assert (Hf : is_failed p = false)
      by (unfold is_failed;
          destruct Hst as [-> | [-> | [-> | ->]]]; reflexivity).
    destruct op as [g r|reason code|]; simpl.
    - unfold mark_completed. rewrite Hp. reflexivity.
    - unfold mark_failed. rewrite Hp. reflexivity.
    - unfold retry_payment, can_retry. rewrite Hf. reflexivity. }
  rewrite Hstep. exact IH.
Qed.

Lemma X17_completed_payment_is_final_witness :
  let s := PaymentWorkflow.mk (with_status completed Demo.payment)
             Demo.booking in
  run [(10, MarkFailed "late decline" "91"); (20, Retry);
       (30, MarkCompleted (Some "GW-2") None)] s = s.
Proof.
  intros s.
  apply (X17_completed_payment_is_final
           [(10, MarkFailed "late decline" "91"); (20, Retry);
            (30, MarkCompleted (Some "GW-2") None)] s).
  left. reflexivity.
Defined.

Lemma save_payment_expires_at (now : DateTime) (q : Payment.t) :
  expires_at (save_payment now q)
  = match expires_at q with
    | Some e => Some e
    | None =>
        if bool_decide (status q = pending)
        then Some (now + timedelta_minutes 30) else None
    end.
Proof.
  unfold save_payment.
  set (q1 := if opt_decimal_truthy (net_amount q) then q
             else with_net_amount (Some (amount q - total_fees q)%Q) q).
  assert (He : expires_at q1 = expires_at q)
    by (subst q1; destruct (opt_decimal_truthy (net_amount q)); reflexivity).
  assert (Hs : status q1 = status q)
    by (subst q1; destruct (opt_decimal_truthy (net_amount q)); reflexivity).
  rewrite Hs. destruct (expires_at q) as [e|] eqn:E.
  - rewrite He. exact He.
  - rewrite He. case_bool_decide; [reflexivity | exact He].
Qed.

(** X18. A retry does not renew the payment's expiry: when [expires_at]
    is set, a successful [retry_payment] leaves it as it was, so the
    retried payment is overdue at once if that instant has passed.  Only
    a payment without [expires_at] gets thirty minutes from the retry. *)
Theorem X18_retry_keeps_expiry (now at_time : DateTime) (p : Payment.t)
    (b : Booking.t) :
  snd (retry_payment now p b) = true ->
  (forall e, expires_at p = Some e ->
     expires_at (fst (retry_payment now p b)) = Some e /\
     (is_overdue at_time (fst (retry_payment now p b)) = true <->
        e < at_time)) /\
  (expires_at p = None ->
     expires_at (fst (retry_payment now p b))
     = Some (now + timedelta_minutes 30)).
Proof.
  unfold retry_payment. destruct (can_retry p b); simpl;
    [intros _|discriminate].
  rewrite save_payment_expires_at.
  change (expires_at (with_retry (retry_count p + 1) now
                        (with_status pending p)))
    with (expires_at p).
  split.
  - intros e He. rewrite He. split; [reflexivity|].
    unfold is_overdue.
    rewrite save_payment_expires_at, save_payment_status.
    change (expires_at (with_retry (retry_count p + 1) now
                          (with_status pending p)))
      with (expires_at p).
    rewrite He. simpl. apply Z.ltb_lt.
  - intros He. rewrite He. reflexivity.
Qed.

Lemma X18_retry_keeps_expiry_witness :
  let p := with_status failed Demo.payment in
  expires_at (fst (retry_payment 2000000000 p Demo.booking))
  = Some 1800000000 /\
  is_overdue 2000000000 (fst (retry_payment 2000000000 p Demo.booking))
  = true.
Proof.
  intros p.
  destruct (X18_retry_keeps_expiry 2000000000 2000000000 p Demo.booking
              eq_refl) as [Hset _].
  destruct (Hset 1800000000 eq_refl) as [H1 H2].
  split; [exact H1|]. apply H2. reflexivity.
Defined.

End PaymentSequences.

(** ** Settlement *)

Section Settlement.

Import payments_models Settlements.

(** X19. For a payment with non-negative amount and fees, the settlement
    amount lies between zero and 95% of the amount; it is exactly the
    amount less the 5% commission and the two fees whenever that is
    positive, and zero otherwise. *)
Theorem X19_settlement_amount_bounds (p : Payment.t) :
  (0 <= Payment.amount p)%Q -> (0 <= Payment.gateway_fee p)%Q ->
  (0 <= Payment.platform_fee p)%Q ->
  (0 <= calculate_settlement_amount p)%Q /\
  (calculate_settlement_amount p <= Payment.amount p * (95 # 100))%Q /\
  (calculate_settlement_amount p <= Payment.amount p)%Q /\
  ((Payment.gateway_fee p + Payment.platform_fee p
    < Payment.amount p * (95 # 100))%Q ->
   (calculate_settlement_amount p
    == Payment.amount p - Payment.amount p * (5 # 100)
       - Payment.gateway_fee p - Payment.platform_fee p)%Q) /\
  ((Payment.amount p * (95 # 100)
    <= Payment.gateway_fee p + Payment.platform_fee p)%Q ->
   (calculate_settlement_amount p == 0)%Q).
Proof.
  intros Ha Hg Hf. unfold calculate_settlement_amount, total_fees.
  destruct (Qlt_le_dec 0
              (Payment.amount p - Payment.amount p * (5 # 100)
               - (Payment.gateway_fee p + Payment.platform_fee p)))
    as [Hpos|Hneg];
    unfold Decimal in *; repeat split; intros; try lra.
Qed.

Lemma X19_settlement_amount_bounds_witness :
  (0 <= calculate_settlement_amount Demo.payment)%Q /\
  (calculate_settlement_amount Demo.payment
   <= Payment.amount Demo.payment)%Q.
Proof.
  destruct (X19_settlement_amount_bounds Demo.payment)
    as (H0 & _ & H1 & _ & _); try (vm_compute; discriminate).
  split; assumption.
Defined.



End Settlement.

(** ** Refunds: approval and closing of the payment *)

Section RefundLifecycle.

Import payments_models RefundWorkflow RefundAudit.

Lemma save_refund_fields (r : Refund.t) :
  Refund.status (save_refund r) = Refund.status r /\
  Refund.approved_at (save_refund r) = Refund.approved_at r /\
  Refund.completed_at (save_refund r) = Refund.completed_at r.
Proof.
  unfold save_refund.
  destruct (opt_decimal_truthy (Refund.net_refund_amount r));
    repeat split; reflexivity.
Qed.

Lemma approve_audited (now : DateTime) (u : UserId) (notes : string)
    (r : Refund.t) :
  audited r -> audited (fst (approve now u notes r)).
Proof.
  intros Ha. unfold approve.
  destruct (negb (is_approved r)
            && bool_decide (Refund.status r = Refund.pending)); simpl;
    [|exact Ha].
  unfold audited. destruct (save_refund_fields
                              (Refund.with_approval u now notes r))
    as (-> & -> & ->).
  simpl. split; [discriminate|].
  split; discriminate.
Qed.

Lemma complete_refund_audited (now : DateTime) (g : option string)
    (r : Refund.t) (p : Payment.t) :
  audited r -> audited (fst (fst (complete_refund now g r p))).
Proof.
  intros Ha. unfold complete_refund.
  case_bool_decide as Hst; simpl; [|exact Ha].
  destruct Ha as (Hpend & Hproc & Hdone).
  unfold audited.
  match goal with
  | |- context [save_refund ?x] =>
      destruct (save_refund_fields x) as (-> & -> & ->)
  end.
  assert (Happ : Refund.approved_at r <> None) by (apply Hproc; left; exact Hst).
  destruct g as [s|]; [destruct (str_truthy s)|]; simpl;
    (split; [discriminate|]);
    (split; [intros _; exact Happ | intros _; discriminate]).
Qed.

(** X21. No refund is completed without approval.  If the refund table
    starts with every processing or completed refund approved (as the
    empty table does), then after every sequence of [process_refund],
    [approve] and [complete_refund] operations each refund that is
    processing or completed carries its approval time, each completed
    one its completion time, and each pending one has no completion
    time. *)
Theorem X21_refunds_complete_only_approved (ops : list (DateTime * Op))
    (s : State) :
  Forall audited (refunds (db s)) ->
  Forall audited (refunds (db (run ops s))).
Proof.
  unfold run. revert s.
  induction ops as [|[now op] ops IH]; intros s Hs; [exact Hs|].
  simpl. apply IH.
  destruct op as [a reason|i u notes|i g]; simpl.
  - unfold process_refund. case_bool_decide; simpl; [|exact Hs].
    apply Forall_app. split; [exact Hs|].
    constructor; [|constructor].
    unfold audited.
    match goal with
    | |- context [save_refund ?x] =>
        destruct (save_refund_fields x) as (-> & -> & ->)
    end.
    simpl. split; [reflexivity|].
    split; intros Hx; [destruct Hx; discriminate | discriminate].
  - destruct (own_refund i s) as [r|] eqn:Hr; [|exact Hs].
    pose proof (approve_audited now u notes r) as Ha.
    destruct (approve now u notes r) as [r1 ok]; simpl in *.
    apply Forall_insert; [exact Hs|]. apply Ha.
    unfold own_refund in Hr.
    destruct (refunds (db s) !! i) as [r0|] eqn:Hl; [|discriminate].
    case_bool_decide; [|discriminate]. injection Hr as <-.
    exact (Forall_lookup_1 _ _ _ _ Hs Hl).
  - destruct (own_refund i s) as [r|] eqn:Hr; [|exact Hs].
    pose proof (complete_refund_audited now g r (payment s)) as Ha.
    destruct (complete_refund now g r (payment s)) as [[r1 p1] ok];
      simpl in *.
    apply Forall_insert; [exact Hs|]. apply Ha.
    unfold own_refund in Hr.
    destruct (refunds (db s) !! i) as [r0|] eqn:Hl; [|discriminate].
    case_bool_decide; [|discriminate]. injection Hr as <-.
    exact (Forall_lookup_1 _ _ _ _ Hs Hl).
Qed.

Lemma X21_refunds_complete_only_approved_witness :
  Forall audited (refunds (db (run double_refund Demo.refund_state))).
Proof.
  apply (X21_refunds_complete_only_approved double_refund Demo.refund_state).
  constructor.
Defined.

(** X22. A completed refund closes the payment for [process_refund].
    [complete_refund] succeeds exactly on a processing refund and sets
    the payment to [refunded] when the refund covers the amount and to
    [partially_refunded] otherwise; in both cases [process_refund] on the
    payment then returns [None] and creates nothing, so a partial refund
    cannot be followed by another through it. *)
Theorem X22_refund_closes_payment (now : DateTime) (g : option string)
    (r : Refund.t) (p : Payment.t) (a : option Decimal) (reason : string)
    (d : Db) :
  (snd (complete_refund now g r p) = true <->
     Refund.status r = Refund.processing) /\
  (snd (complete_refund now g r p) = true ->
     Refund.status (fst (fst (complete_refund now g r p))) = Refund.completed /\
     ((Payment.amount p <= Refund.refund_amount r)%Q ->
      Payment.status (snd (fst (complete_refund now g r p)))
      = Payment.refunded) /\
     ((Refund.refund_amount r < Payment.amount p)%Q ->
      Payment.status (snd (fst (complete_refund now g r p)))
      = Payment.partially_refunded) /\
     process_refund a reason (snd (fst (complete_refund now g r p))) d
     = (None, d)) /\
  (snd (complete_refund now g r p) = false ->
     complete_refund now g r p = (r, p, false)).
Proof.
  unfold complete_refund.
  case_bool_decide as Hst; simpl.
  - split; [tauto|]. split; [intros _|discriminate].
    destruct (save_refund_fields
                (match g with
                 | Some g0 =>
                     if str_truthy g0
                     then Refund.with_gateway_refund_id g0
                            (Refund.with_completion now r)
                     else Refund.with_completion now r
                 | None => Refund.with_completion now r
                 end)) as (-> & _ & _).
    split; [destruct g as [s|]; [destruct (str_truthy s)|]; reflexivity|].
    destruct (Qle_bool (Payment.amount p) (Refund.refund_amount r)) eqn:Hle.
    + apply Qle_bool_iff in Hle.
      split; [intros _; rewrite save_payment_status; reflexivity|].
      split; [intros Hlt; apply Qlt_not_le in Hlt; contradiction|].
      unfold process_refund. rewrite save_payment_status. reflexivity.
    + assert (Hnle : ~ (Payment.amount p <= Refund.refund_amount r)%Q).
      { intros H. apply Qle_bool_iff in H. congruence. }
      split; [intros H; contradiction|].
      split; [intros _; rewrite save_payment_status; reflexivity|].
      unfold process_refund. rewrite save_payment_status. reflexivity.
  - split; [split; [discriminate|contradiction]|].
    split; [discriminate|reflexivity].
Qed.

Lemma X22_refund_closes_payment_witness :
  let r := Refund.mk 1 5000%Q "UGX" "one ticket returned" Refund.processing
             0%Q (Some 5000%Q) 42 "" 0%Q (Some 1) (Some 20) "" None in
  let p := Payment.with_status Payment.completed Demo.payment in
  Payment.status (snd (fst (complete_refund 30 None r p)))
  = Payment.partially_refunded /\
  process_refund None "the rest" (snd (fst (complete_refund 30 None r p)))
    Demo.db = (None, Demo.db).
Proof.
  intros r p.
  destruct (X22_refund_closes_payment 30 None r p None "the rest" Demo.db)
    as (_ & Hok & _).
  destruct (Hok eq_refl) as (_ & _ & Hpart & Hclosed).
  split; [apply Hpart; vm_compute; reflexivity | exact Hclosed].
Defined.

End RefundLifecycle.

(** ** Usage of a discount code *)

Section DiscountLimits.

Import DiscountUsage.

Lemma increment_usage_iter (n : nat) (c : DiscountUsage.t) :
  Nat.iter n increment_usage c
  = mk (is_active c) (valid_from c) (valid_until c) (usage_type c)
       (usage_limit c) (times_used c + Z.of_nat n).
Proof.
  induction n as [|n IH].
  - simpl. destruct c; simpl. f_equal. lia.
  - rewrite Nat.iter_succ, IH. unfold increment_usage. simpl.
    f_equal. lia.
Qed.

(** X23. A code of a limited type with a limit [lim > 0] that is active
    and inside its validity window serves exactly [lim] uses: after [n]
    calls of [increment_usage] from a fresh code it is still valid exactly
    when [n < lim], the limit is reached exactly when [lim <= n], and
    [remaining_uses] is [max 0 (lim - n)]. *)
Theorem X23_limited_code_serves_limit (now : DateTime) (n : nat) (lim : Z)
    (c : DiscountUsage.t) :
  usage_type c <> unlimited -> usage_limit c = Some lim -> 0 < lim ->
  times_used c = 0 ->
  is_active c = true -> valid_from c <= now -> now <= valid_until c ->
  let c' := Nat.iter n increment_usage c in
  (is_valid now c' = true <-> Z.of_nat n < lim) /\
  (is_usage_limit_reached c' = true <-> lim <= Z.of_nat n) /\
  remaining_uses c' = Some (Z.max 0 (lim - Z.of_nat n)).
Proof.
  intros Ht Hl Hpos Hu Ha Hf Hv c'. subst c'.
  rewrite increment_usage_iter.
  unfold is_valid, is_usage_limit_reached, remaining_uses. simpl.
  rewrite bool_decide_eq_false_2 by exact Ht.
  rewrite Hl, Hu, Ha.
  destruct (Z.eqb_spec lim 0) as [->|_]; [lia|].
  replace (valid_from c <=? now) with true by (symmetry; apply Z.leb_le; lia).
  replace (now <=? valid_until c) with true
    by (symmetry; apply Z.leb_le; lia).
  simpl. rewrite negb_true_iff, Z.leb_gt, Z.leb_le.
  repeat split; try lia; f_equal; lia.
Qed.

Lemma X23_limited_code_serves_limit_witness :
  let c := mk true 0 100 single_use (Some 1) 0 in
  is_valid 50 c = true /\ is_valid 50 (increment_usage c) = false.
Proof.
  intros c.
  destruct (X23_limited_code_serves_limit 50 0 1 c) as (H0 & _);
    try (vm_compute; congruence).
  destruct (X23_limited_code_serves_limit 50 1 1 c) as (H1 & _);
    try (vm_compute; congruence).
  split.
  - apply H0. vm_compute. reflexivity.
  - simpl in H1. destruct (is_valid 50 (increment_usage c)) eqn:E;
      [|reflexivity].
    exfalso. assert (Z.of_nat 1 < 1) by (apply H1; reflexivity). lia.
Defined.

(** X24. A code without an effective limit is never used up: when the
    usage type is [unlimited], or [usage_limit] is unset or zero (also for
    a [single_use] or [limited] code), then after any number of
    [increment_usage] calls the limit is not reached, [remaining_uses] is
    [None], and the code is valid exactly when it is active and inside its
    window. *)
Theorem X24_code_without_limit (now : DateTime) (n : nat)
    (c : DiscountUsage.t) :
  usage_type c = unlimited \/ usage_limit c = None \/ usage_limit c = Some 0 ->
  let c' := Nat.iter n increment_usage c in
  is_usage_limit_reached c' = false /\
  remaining_uses c' = None /\
  is_valid now c'
  = is_active c && (valid_from c <=? now) && (now <=? valid_until c).
Proof.
  intros H c'. subst c'. rewrite increment_usage_iter.
  unfold is_valid, is_usage_limit_reached, remaining_uses. simpl.
  destruct H as [H|[H|H]]; rewrite H; simpl.
  - rewrite andb_true_r. repeat split.
  - case_bool_decide; rewrite andb_true_r; repeat split.
  - case_bool_decide; rewrite andb_true_r; repeat split.
Qed.

Lemma X24_code_without_limit_witness :
  let c := mk true 0 100 single_use None 0 in
  is_valid 50 (Nat.iter 3 increment_usage c) = true.
Proof.
  intros c.
  destruct (X24_code_without_limit 50 3 c) as (_ & _ & H).
  - right. left. reflexivity.
  - rewrite H. reflexivity.
Defined.

End DiscountLimits.

(** ** The dates and the sales of an event *)

Section EventSales.

Import TicketType events_models.

Lemma sum_over_acc (f : TicketType.t -> Z) (rows : list TicketType.t)
    (acc : Z) :
  foldl (fun a r => a + f r) acc rows = acc + sum_over f rows.
Proof.
  unfold sum_over. revert acc.
  induction rows as [|r rows IH]; intros acc; simpl; [lia|].
  rewrite IH, (IH (0 + f r)). lia.
Qed.

Lemma sum_over_cons (f : TicketType.t -> Z) (r : TicketType.t)
    (rows : list TicketType.t) :
  sum_over f (r :: rows) = f r + sum_over f rows.
Proof.
  unfold sum_over at 1. simpl. rewrite sum_over_acc. lia.
Qed.

Lemma sum_over_sold_le (rows : list TicketType.t) :
  Forall (fun r => wf r /\ conserved r) rows ->
  sum_over sold_count rows <= sum_over quantity rows /\
  (sum_over quantity rows <= sum_over sold_count rows ->
   Forall (fun r => sold_count r = quantity r) rows).
Proof.
  induction 1 as [|r rows [Hwf Hc] _ IH].
  - split; [reflexivity|]. constructor.
  - rewrite !sum_over_cons. destruct IH as [IH1 IH2].
    destruct Hwf as (Hq & Hs & Hr). unfold conserved in Hc.
    split; [lia|]. intros Hle.
    constructor; [lia|]. apply IH2. lia.
Qed.

(** X25. With every ticket type inside the ledger invariant, an event is
    sold out exactly when it has tickets at all and every one of its
    ticket types has sold its whole quantity; each ticket type is then
    sold out itself and holds no reservation.  An event without ticket
    types, or one whose last tickets are only reserved, is not sold
    out. *)
Theorem X25_event_sold_out (rows : list TicketType.t) :
  Forall (fun r => wf r /\ conserved r) rows ->
  (is_sold_out rows = true <->
   0 < sum_over quantity rows /\
   Forall (fun r => sold_count r = quantity r) rows) /\
  (is_sold_out rows = true ->
   rows <> [] /\
   Forall (fun r => tickets_models.is_sold_out r = true
                    /\ reserved_count r = 0) rows).
Proof.
  intros Hrows. pose proof (sum_over_sold_le rows Hrows) as [Hle Hall].
  assert (Hiff : is_sold_out rows = true <->
                 0 < sum_over quantity rows /\
                 Forall (fun r => sold_count r = quantity r) rows).
  { unfold is_sold_out.
    destruct (Z.ltb_spec 0 (sum_over quantity rows)) as [Hpos|Hnpos].
    - rewrite Z.leb_le. split.
      + intros H. split; [exact Hpos|]. apply Hall, H.
      + intros [_ H]. clear -H.
        induction H as [|r rows Hr _ IH]; [reflexivity|].
        rewrite !sum_over_cons. lia.
    - split; [discriminate|]. intros [H _]. lia. }
  split; [exact Hiff|].
  intros Hso. apply Hiff in Hso as [Hpos Heq]. split.
  - intros ->. unfold sum_over in Hpos. simpl in Hpos. lia.
  - clear Hpos Hle Hall Hiff.
    induction Hrows as [|r rows [Hwf Hc] _ IH]; [constructor|].
    inversion Heq as [|? ? Hr Hrest]; subst.
    constructor; [|apply IH, Hrest].
    destruct Hwf as (Hq & Hs & Hres). unfold conserved in Hc.
    unfold tickets_models.is_sold_out, tickets_models.available_count.
    split; [apply Z.eqb_eq|]; lia.
Qed.

Lemma X25_event_sold_out_witness :
  is_sold_out [mk 10 10 0 sold_out; mk 5 3 2 on_sale] = false /\
  is_sold_out [mk 10 10 0 sold_out; mk 5 5 0 sold_out] = true.
Proof.
  split.
  - destruct (X25_event_sold_out [mk 10 10 0 sold_out; mk 5 3 2 on_sale])
      as [[H _] _].
    + constructor; [unfold wf, conserved; simpl; lia|].
      constructor; [unfold wf, conserved; simpl; lia|]. constructor.
    + destruct (is_sold_out [mk 10 10 0 sold_out; mk 5 3 2 on_sale]);
        [|reflexivity].
      destruct (H eq_refl) as [_ Hall].
      inversion Hall as [|? ? _ Hall']. inversion Hall' as [|? ? Hx _].
      simpl in Hx. lia.
  - destruct (X25_event_sold_out [mk 10 10 0 sold_out; mk 5 5 0 sold_out])
      as [[_ H] _].
    + constructor; [unfold wf, conserved; simpl; lia|].
      constructor; [unfold wf, conserved; simpl; lia|]. constructor.
    + apply H. split; [vm_compute; reflexivity|].
      constructor; [reflexivity|]. constructor; [reflexivity|]. constructor.
Defined.



End EventSales.

(** ** The waitlist *)

Section WaitlistQueue.

Import WaitlistEntry Waitlist.

(** The eligible rows in the order of the query. *)
Lemma queue_elem_of (tt a : Z) (table : list WaitlistEntry.t) (i : nat)
    (e : WaitlistEntry.t) :
  (i, e) ∈ merge_sort by_position
             (filter (fun r => eligible tt a (snd r) = true)
                     (imap (fun i e => (i, e)) table))
  <-> table !! i = Some e /\ eligible tt a e = true.
Proof.
  rewrite merge_sort_Permutation, list_elem_of_filter, elem_of_lookup_imap.
  simpl. split.
  - intros [He (j & y & Heq & Hl)]. injection Heq as -> ->. tauto.
  - intros [Hl He]. split; [exact He|]. exists i, e. tauto.
Qed.

Lemma fetched_sound (tt a : Z) (table : list WaitlistEntry.t) (i : nat)
    (e : WaitlistEntry.t) :
  (i, e) ∈ fetched tt a table ->
  table !! i = Some e /\ eligible tt a e = true.
Proof.
  unfold fetched. intros H. apply elem_of_take in H as (j & Hj & _).
  apply (queue_elem_of tt a table i e).
  exact (list_elem_of_lookup_2 _ _ _ Hj).
Qed.

Lemma notify_waitlist_lookup (now : DateTime) (tt a : Z)
    (table : list WaitlistEntry.t) (i : nat) (e : WaitlistEntry.t) :
  table !! i = Some e ->
  (i ∈ (fetched tt a table).*1 /\ eligible tt a e = true /\
   notify_waitlist now tt a table !! i
   = Some (mk (event e) (ticket_type e) (user e) (quantity_requested e)
              (is_active e) (position e) (Some now)
              (Some (now + timedelta_hours 2)))) \/
  ((i ∉ (fetched tt a table).*1) /\
   notify_waitlist now tt a table !! i = Some e).
Proof.
  intros Hl. unfold notify_waitlist. rewrite list_lookup_imap, Hl. simpl.
  case_bool_decide as Hi; [left|right; tauto].
  split; [exact Hi|].
  apply list_elem_of_fmap in Hi as ([j e0] & Hj & Hin). simpl in Hj. subst j.
  apply fetched_sound in Hin as [Hl0 He0].
  rewrite Hl in Hl0. injection Hl0 as <-.
  split; [exact He0|].
  unfold notify_availability. unfold eligible in He0.
  apply andb_true_iff in He0 as [He0 _].
  apply andb_true_iff in He0 as [He0 Hn].
  apply andb_true_iff in He0 as [_ Hact].
  rewrite Hact, Hn. reflexivity.
Qed.

(** X27. [notify_waitlist] notifies at most five entries and only
    eligible ones (of the ticket type, active, not yet notified, asking
    for no more than is available): a notified entry gets [notified_at]
    set to now and a two-hour expiry, every other row of the table is
    unchanged, and the table keeps its length.  An eligible entry is
    passed over only when five entries were notified, each with a
    position not after its own. *)
Theorem X27_notify_waitlist (now : DateTime) (tt a : Z)
    (table : list WaitlistEntry.t) :
  let table' := notify_waitlist now tt a table in
  length table' = length table /\
  (exists idx : list nat,
     length idx <= 5 /\
     forall i, i ∉ idx -> table' !! i = table !! i)%nat /\
  (forall i e, table !! i = Some e ->
     table' !! i = Some e \/
     (eligible tt a e = true /\
      table' !! i
      = Some (mk (event e) (ticket_type e) (user e) (quantity_requested e)
                 (is_active e) (position e) (Some now)
                 (Some (now + timedelta_hours 2))))) /\
  (forall i e, table !! i = Some e -> eligible tt a e = true ->
     table' !! i = Some e ->
     (exists idx : list nat,
        NoDup idx /\ length idx = 5%nat /\
        forall j, j ∈ idx ->
          exists e', table !! j = Some e' /\ table' !! j <> Some e' /\
                     position e' <= position e)).
Proof.
  intros table'. subst table'.
  split; [unfold notify_waitlist; apply length_imap|].
  split.
  { exists (fetched tt a table).*1. split.
    - rewrite length_fmap. unfold fetched. rewrite length_take. lia.
    - intros i Hi. destruct (table !! i) as [e|] eqn:Hl.
      + destruct (notify_waitlist_lookup now tt a table i e Hl)
          as [(Hin & _)|(_ & H)]; [contradiction|exact H].
      + unfold notify_waitlist. rewrite list_lookup_imap, Hl. reflexivity. }
  split.
  { intros i e Hl.
    destruct (notify_waitlist_lookup now tt a table i e Hl)
      as [(_ & He & H)|(_ & H)]; [right|left]; tauto. }
  intros i e Hl He Hsame.
  set (queue := merge_sort by_position
                  (filter (fun r => eligible tt a (snd r) = true)
                          (imap (fun i e => (i, e)) table))).
  assert (Hnot : i ∉ (fetched tt a table).*1).
  { destruct (notify_waitlist_lookup now tt a table i e Hl)
      as [(_ & _ & H)|(H & _)]; [|exact H].
    rewrite Hsame in H. injection H as H.
    unfold eligible in He.
    apply andb_true_iff in He as [He _].
    apply andb_true_iff in He as [_ Hn].
    apply bool_decide_eq_true in Hn.
    rewrite H in Hn. discriminate. }
  assert (Hq : (i, e) ∈ queue) by (apply queue_elem_of; tauto).
  assert (Hsplit : queue = fetched tt a table ++ drop 5 queue)
    by (unfold fetched; fold queue; symmetry; apply take_drop).
  assert (Hdrop : (i, e) ∈ drop 5 queue).
  { rewrite Hsplit in Hq. apply elem_of_app in Hq as [Hq|Hq]; [|exact Hq].
    exfalso. apply Hnot. apply list_elem_of_fmap. exists (i, e). tauto. }
  assert (Hsorted : StronglySorted by_position queue)
    by (apply StronglySorted_merge_sort; apply _).
  assert (Hnodup : NoDup (queue.*1)).
  { unfold queue. rewrite merge_sort_Permutation.
    apply NoDup_fmap_fst.
    - intros j x y Hx Hy.
      apply list_elem_of_filter in Hx as [_ Hx].
      apply list_elem_of_filter in Hy as [_ Hy].
      apply elem_of_lookup_imap in Hx as (j1 & x1 & Hx1 & Hlx).
      apply elem_of_lookup_imap in Hy as (j2 & y1 & Hy1 & Hly).
      injection Hx1 as -> ->. injection Hy1 as -> ->. congruence.
    - apply NoDup_filter. apply NoDup_alt.
      intros j1 j2 [k x] H1 H2.
      rewrite list_lookup_imap in H1, H2.
      destruct (table !! j1) eqn:E1; [|discriminate].
      destruct (table !! j2) eqn:E2; [|discriminate].
      simpl in H1, H2. congruence. }
  exists (fetched tt a table).*1.
  split.
  { rewrite Hsplit, fmap_app in Hnodup.
    apply NoDup_app in Hnodup as (H & _ & _). exact H. }
  split.
  { rewrite length_fmap. unfold fetched. fold queue. rewrite length_take.
    assert (length (drop 5 queue) <> 0)%nat.
    { destruct (drop 5 queue); [inversion Hdrop|simpl; lia]. }
    rewrite length_drop in *. lia. }
  intros j Hj.
  apply list_elem_of_fmap in Hj as ([j0 e'] & Hj0 & Hin). simpl in Hj0.
  subst j0. exists e'.
  pose proof (fetched_sound tt a table j e' Hin) as [Hl' He'].
  split; [exact Hl'|]. split.
  - destruct (notify_waitlist_lookup now tt a table j e' Hl')
      as [(_ & _ & H)|(H & _)].
    + rewrite H. intros Heq. injection Heq as Heq.
      unfold eligible in He'.
      apply andb_true_iff in He' as [He' _].
      apply andb_true_iff in He' as [_ Hn].
      apply bool_decide_eq_true in Hn.
      rewrite <- Heq in Hn. discriminate.
    + exfalso. apply H. apply list_elem_of_fmap. exists (j, e'). tauto.
  - rewrite Hsplit in Hsorted.
    exact (StronglySorted_app_1_elem_of _ _ _ _ _ Hsorted Hin Hdrop).
Qed.





(** X29. [get_next_in_line] returns an eligible entry of the table (of
    the ticket type, active, not yet notified, asking for no more than
    the quantity) whose position is the smallest among the eligible ones,
    and returns [None] exactly when the table has no eligible entry. *)
Theorem X29_get_next_in_line (tt q : Z) (table : list WaitlistEntry.t) :
  (forall e, get_next_in_line tt q table = Some e ->
     e ∈ table /\ eligible tt q e = true /\
     forall e', e' ∈ table -> eligible tt q e' = true ->
                position e <= position e') /\
  (get_next_in_line tt q table = None <->
   forall e, e ∈ table -> eligible tt q e = false).
Proof.
  unfold get_next_in_line.
  set (queue := merge_sort by_position
                  (filter (fun r => eligible tt q (snd r) = true)
                          (imap (fun i e => (i, e)) table))).
  assert (Hq : forall i e, (i, e) ∈ queue
                           <-> table !! i = Some e /\ eligible tt q e = true)
    by (intros; apply queue_elem_of).
  assert (Hsorted : StronglySorted by_position queue)
    by (apply StronglySorted_merge_sort; apply _).
  split.
  - intros e He. destruct queue as [|[i0 e0] rest] eqn:Eq; [discriminate|].
    simpl in He. injection He as <-.
    assert (H0 : (i0, e0) ∈ (i0, e0) :: rest) by apply list_elem_of_here.
    apply Hq in H0 as [Hl0 He0].
    split; [exact (list_elem_of_lookup_2 _ _ _ Hl0)|].
    split; [exact He0|].
    intros e' Hin He'. apply list_elem_of_lookup_1 in Hin as [j Hj].
    assert (H1 : (j, e') ∈ (i0, e0) :: rest) by (apply Hq; tauto).
    apply elem_of_cons in H1 as [H1|H1].
    + injection H1 as _ ->. lia.
    + inversion Hsorted as [|? ? _ Hall]; subst.
      rewrite Forall_forall in Hall. exact (Hall _ H1).
  - split.
    + intros Hnone e Hin. destruct (eligible tt q e) eqn:He; [|reflexivity].
      apply list_elem_of_lookup_1 in Hin as [j Hj].
      assert (H1 : (j, e) ∈ queue) by (apply Hq; tauto).
      destruct queue; [inversion H1|discriminate].
    + intros Hall. destruct queue as [|[i0 e0] rest] eqn:Eq; [reflexivity|].
      assert (H0 : (i0, e0) ∈ (i0, e0) :: rest) by apply list_elem_of_here.
      apply Hq in H0 as [Hl0 He0].
      rewrite (Hall e0 (list_elem_of_lookup_2 _ _ _ Hl0)) in He0.
      discriminate.
Qed.

Lemma X27_notify_waitlist_witness :
  let entry (p : Z) := mk 1 7 (40 + p) 1 true p None None in
  let table := [entry 3; entry 1; entry 6; entry 2; entry 5; entry 4] in
  notify_waitlist 100 7 2 table !! 2%nat = Some (entry 6) /\
  exists idx : list nat,
    NoDup idx /\ length idx = 5%nat /\
    forall j, j ∈ idx ->
      exists e', table !! j = Some e' /\
                 notify_waitlist 100 7 2 table !! j <> Some e' /\
                 position e' <= 6.
Proof.
  intros entry table.
  split; [vm_compute; reflexivity|].
  destruct (X27_notify_waitlist 100 7 2 table) as (_ & _ & _ & H).
  apply (H 2%nat (entry 6)); vm_compute; reflexivity.
Defined.

Lemma X29_get_next_in_line_witness :
  let entry (p : Z) := mk 1 7 (40 + p) 1 true p None None in
  let table := [entry 3; entry 1; entry 6] in
  get_next_in_line 7 2 table = Some (entry 1) /\
  forall e', e' ∈ table -> eligible 7 2 e' = true -> 1 <= position e'.
Proof.
  intros entry table.
  split; [vm_compute; reflexivity|].
  destruct (X29_get_next_in_line 7 2 table) as (H & _).
  destruct (H (entry 1)) as (_ & _ & Hmin); [vm_compute; reflexivity|].
  exact Hmin.
Defined.

End WaitlistQueue.

(** ** The cancel action of the bookings API *)

Section CancelAction.

Import Booking bookings_models booking_views.

(** X30. The cancel action answers 200 exactly for a pending, confirmed
    or paid booking and 400 otherwise.  On 200 the booking is cancelled
    and one history row is added whose [previous_status] is read after
    the cancellation: it is "cancelled", like [new_status], whatever the
    status was before.  On 400 the booking, the tables and the history
    are unchanged. *)
Theorem X30_cancel_post_history (now : DateTime) (u : UserId)
    (r : option string) (b : Booking.t) (db : Db) (history : list History) :
  let out := cancel_post now u r b db history in
  (snd out = 200 \/ snd out = 400) /\
  (snd out = 200 <->
   status b = pending \/ status b = confirmed \/ status b = paid) /\
  (snd out = 200 ->
   status (fst (fst (fst out))) = cancelled /\
   exists row,
     snd (fst out) = history ++ [row] /\
     previous_status row = "cancelled" /\ new_status row = "cancelled" /\
     changed_by row = Some u /\
     reason row = default "Cancelled by customer" r) /\
  (snd out = 400 -> out = (b, db, history, 400)).
Proof.
  unfold cancel_post, cancel_booking.
  destruct (bool_decide (status b = pending)
            || bool_decide (status b = confirmed)
            || bool_decide (status b = paid)) eqn:E; simpl.
  - rewrite !orb_true_iff, !bool_decide_eq_true in E.
    rewrite booking_save_not_pending by (simpl; discriminate). simpl.
    split; [tauto|]. split; [tauto|]. split; [|discriminate].
    intros _. split; [reflexivity|].
    eexists. split; [reflexivity|]. repeat split.
  - rewrite !orb_false_iff, !bool_decide_eq_false in E.
    split; [tauto|]. split; [split; [discriminate|tauto]|].
    split; [discriminate|reflexivity].
Qed.

Lemma X30_cancel_post_history_witness :
  let out := cancel_post 10 42 None Demo.booking Demo.db [] in
  snd out = 200 /\
  exists row,
    snd (fst out) = [row] /\
    previous_status row = "cancelled" /\ new_status row = "cancelled".
Proof.
  intros out.
  destruct (X30_cancel_post_history 10 42 None Demo.booking Demo.db [])
    as (_ & _ & H & _).
  split; [vm_compute; reflexivity|].
  destruct (H ltac:(vm_compute; reflexivity)) as (_ & row & H1 & H2 & H3 & _).
  exists row. split; [exact H1|]. split; assumption.
Defined.

End CancelAction.
